(** * atom/browser/native_window_views.cc

  A shallow embedding of [NativeWindowViews], the Views (Windows / X11)
  implementation of atom-shell's native window, and of the small
  [NativeWindowClientView] helper class declared next to it.

  The file is glue on top of the Chromium Views toolkit.  Everything the
  file only calls (the [views::Widget], its non-client view, the frame
  view, the unhandled-keyboard-event handler, menu models, the accelerator
  table generator) is collected in the interface [Host]; the members of
  [NativeWindowViews] itself are the record [NativeWindowViews], and every
  method is a computation in a state monad over that record.  The methods
  that only read one member or one property of the widget ([IsFocused],
  [IsVisible], [GetTitle], [GetWidget] and the like) are left out, as is
  [AcceleratorPressed], which hands the event to [accelerator_util].

  C++ [int] is modelled by [Z].  The far edges of a rectangle, [right()]
  and [bottom()], are sums that the draggable regions depend on: they wrap
  at 32 bits.  The menu bar height added to or taken from a window height
  stays in [Z]. *)

From Stdlib Require Import ZArith List Bool String Lia.
From stdpp Require Import base option list sorting gmap.
Import ListNotations.
Local Open Scope Z_scope.

(** ** Build configuration

  The source is compiled in one of two configurations, selected by the
  preprocessor: [OS_WIN], or [USE_X11] (which is the [OS_LINUX] build). *)

Inductive Platform := OS_WIN | USE_X11.

Definition is_win (os : Platform) : bool :=
  match os with OS_WIN => true | USE_X11 => false end.

Definition is_x11 (os : Platform) : bool :=
  match os with OS_WIN => false | USE_X11 => true end.

(** The menu bar height in pixels. *)
Definition kMenuBarHeight (os : Platform) : Z :=
  match os with OS_WIN => 20 | USE_X11 => 25 end.

(** ** gfx geometry *)

Module gfx.

Record Point := mkPoint { x : Z; y : Z }.

Record Size := mkSize { width : Z; height : Z }.

(** [gfx::Size] never stores a negative extent. *)
Definition clamp (v : Z) : Z := if v <? 0 then 0 else v.

Definition Size_set_height (h : Z) (s : Size) : Size :=
  mkSize (width s) (clamp h).

Record Rect := mkRect { origin : Point; size : Size }.

Definition Rect_x (r : Rect) : Z := x (origin r).
Definition Rect_y (r : Rect) : Z := y (origin r).
Definition Rect_width (r : Rect) : Z := width (size r).
Definition Rect_height (r : Rect) : Z := height (size r).

(** The value of an [int] sum: 32 bits, two's complement, as the builds of
    the project compute it. *)
Definition int_wrap (z : Z) : Z := (z + 2 ^ 31) mod 2 ^ 32 - 2 ^ 31.

(** [right()] is [x() + width()] and [bottom()] is [y() + height()], in
    [int]. *)
Definition Rect_right (r : Rect) : Z := int_wrap (Rect_x r + Rect_width r).
Definition Rect_bottom (r : Rect) : Z := int_wrap (Rect_y r + Rect_height r).

(** [gfx::Size(width, height)] and [gfx::Rect(x, y, width, height)] *)
Definition Size_new (w h : Z) : Size := mkSize (clamp w) (clamp h).

Definition Rect_new (x y w h : Z) : Rect := mkRect (mkPoint x y) (Size_new w h).

Definition Rect_set_size (s : Size) (r : Rect) : Rect :=
  mkRect (origin r) s.

Definition Rect_set_height (h : Z) (r : Rect) : Rect :=
  mkRect (origin r) (Size_set_height h (size r)).

End gfx.

(** ** Skia regions

  An [SkRegion] is a set of integer points; it is modelled by its
  membership test.  A rectangle given by its four edges holds the points
  with [left <= x < right] and [top <= y < bottom]; it is empty when an
  edge lies before its opposite. *)

Module SkRegion.

Definition t : Type := Z -> Z -> bool.

Inductive Op := kDifference_Op | kUnion_Op.

Definition empty : t := fun _ _ => false.

Definition in_rect (left top right bottom : Z) : t :=
  fun px py => (left <=? px) && (px <? right) && (top <=? py) && (py <? bottom).

Definition contains (r : t) (px py : Z) : bool := r px py.

Definition union (a b : t) : t := fun px py => a px py || b px py.

Definition difference (a b : t) : t := fun px py => a px py && negb (b px py).

(** [SkRegion::op(left, top, right, bottom, op)] *)
Definition op (left top right bottom : Z) (o : Op) (r : t) : t :=
  match o with
  | kUnion_Op => union r (in_rect left top right bottom)
  | kDifference_Op => difference r (in_rect left top right bottom)
  end.

(** The region covered by a [gfx::Rect]. *)
Definition of_rect (b : gfx.Rect) : t :=
  in_rect (gfx.Rect_x b) (gfx.Rect_y b) (gfx.Rect_right b) (gfx.Rect_bottom b).

End SkRegion.

(** atom/common/draggable_region.h *)
Record DraggableRegion := mkDraggableRegion {
  draggable : bool;
  bounds : gfx.Rect
}.

(** ** Keyboard events *)

Module WebInputEvent.

(** The keyboard event types of [blink::WebInputEvent::Type]. *)
Inductive Type_ := RawKeyDown | KeyDown | KeyUp | Char.

Definition Type_eqb (a b : Type_) : bool :=
  match a, b with
  | RawKeyDown, RawKeyDown | KeyDown, KeyDown | KeyUp, KeyUp | Char, Char => true
  | _, _ => false
  end.

(** The bits of [blink::WebInputEvent::Modifiers] the source names. *)
Definition AltKey : Z := Z.shiftl 1 2.
Definition IsLeft : Z := Z.shiftl 1 11.
Definition IsRight : Z := Z.shiftl 1 12.

End WebInputEvent.

Record NativeWebKeyboardEvent := mkKeyEvent {
  type : WebInputEvent.Type_;
  windowsKeyCode : Z;
  modifiers : Z
}.

(** [ui::VKEY_MENU] *)
Definition VKEY_MENU : Z := 18.

(** [HTNOWHERE] of ui/base/hit_test.h *)
Definition HTNOWHERE : Z := 0.

(** ** Accelerators *)

(** A [ui::Accelerator]: key code, event type and modifier mask. *)
Definition Accelerator : Type := Z * Z * Z.

(** [Accelerator::operator<], the key order of the accelerator table:
    by key code, then by event type, then by modifiers. *)
Definition Accelerator_lt (a b : Accelerator) : bool :=
  let '(key_code_a, type_a, modifiers_a) := a in
  let '(key_code_b, type_b, modifiers_b) := b in
  if negb (key_code_a =? key_code_b) then key_code_a <? key_code_b
  else if negb (type_a =? type_b) then type_a <? type_b
  else modifiers_a <? modifiers_b.

(** The keys of an accelerator table in the order in which an iterator
    from [begin()] to [end()] visits them. *)
Definition AcceleratorTable_keys {V} (table : gmap Accelerator V) : list Accelerator :=
  merge_sort (fun a b => Is_true (Accelerator_lt a b)) (map_to_list table).*1.

Inductive HandlerPriority := kNormalPriority | kHighPriority.

(** The accelerator targets known to a focus manager.  [ThisWindow] is the
  [NativeWindowViews] under study, the others are foreign targets. *)
Inductive AcceleratorTarget := ThisWindow | OtherTarget (id : nat).

Global Instance AcceleratorTarget_eq_dec : EqDecision AcceleratorTarget.
Proof. solve_decision. Defined.

Record Registration := mkRegistration {
  reg_accelerator : Accelerator;
  reg_priority : HandlerPriority;
  reg_target : AcceleratorTarget
}.

(** [views::FocusManager], reduced to its accelerator registrations, in the
  order in which they were made. *)
Module FocusManager.

Definition t : Type := list Registration.

Definition RegisterAccelerator
    (a : Accelerator) (p : HandlerPriority) (target : AcceleratorTarget)
    (fm : list Registration) : list Registration :=
  fm ++ [mkRegistration a p target].

Definition UnregisterAccelerators
    (target : AcceleratorTarget) (fm : list Registration) : list Registration :=
  filter (fun r => reg_target r ≠ target) fm.

(** The registrations that belong to [target]. *)
Definition registered
    (target : AcceleratorTarget) (fm : list Registration) : list Registration :=
  filter (fun r => reg_target r = target) fm.

End FocusManager.

(** ** Child views of the contents view *)

Inductive ChildView := WebView | MenuBarView.

Global Instance ChildView_eq_dec : EqDecision ChildView.
Proof. solve_decision. Defined.

Module View.

Definition child_count (cs : list ChildView) : Z := Z.of_nat (length cs).

Definition RemoveChildView (v : ChildView) (cs : list ChildView) : list ChildView :=
  filter (fun c => c ≠ v) cs.

(** [AddChildView] appends; a view that is already a child is moved to
    the end. *)
Definition AddChildView (v : ChildView) (cs : list ChildView) : list ChildView :=
  RemoveChildView v cs ++ [v].

End View.


(** ** Construction options and environment oracles *)

(** The entries of the [mate::Dictionary] the constructor looks up; an
    absent key is [None]. *)
Record Options := mkOptions {
  kResizable : option bool;
  kTitle : option string;
  kAutoHideMenuBar : option bool;
  kWidth : option Z;
  kHeight : option Z;
  kSkipTaskbar : option bool;
  kUseContentSize : option bool
}.

(** [options.Get(key, &out)]: the returned flag and the new value of [out]. *)
Definition Options_Get {A} (entry : option A) (out : A) : bool * A :=
  match entry with
  | Some v => (true, v)
  | None => (false, out)
  end.

Inductive WidgetType := TYPE_WINDOW | TYPE_BUBBLE.

Record InitParams := mkInitParams {
  params_bounds : gfx.Rect;
  params_type : WidgetType;
  params_top_level : bool;
  params_remove_standard_frame : bool
}.

(** What the desktop session answers when [SetMenu] asks about the Unity
    global menu bar (X11 only). *)
Record GlobalMenuEnv := mkGlobalMenuEnv {
  ShouldUseGlobalMenuBar : bool;
  IsServerStarted : bool
}.

(** The [HRESULT]s of the two COM calls of [SetSkipTaskbar]. *)
Record ComEnv := mkComEnv {
  CreateInstance_result : Z;
  HrInit_result : Z
}.

Definition FAILED (hr : Z) : bool := hr <? 0.

(** ** The toolkit *)

(** The [flags] of an [XSizeHints]. *)
Inductive SizeHint := PMinSize | PMaxSize.

(** The calls without result that the source makes on [window_], on the
    views hanging off it, on the native window behind it and on
    [keyboard_event_handler_]. *)
Inductive WidgetCall :=
| W_AddObserver
| W_Init (params : InitParams)
| W_UpdateWindowIcon
| W_CenterWindow (s : gfx.Size)
| W_Layout
| W_Close
| W_CloseNow
| W_SetBounds (b : gfx.Rect)
| W_Maximize
| W_Restore
| W_Minimize
| W_SetFullscreen (fullscreen : bool)
| W_SetSize (s : gfx.Size)
| W_UpdateWindowTitle
| W_Activate
| W_Deactivate
| W_Show
| W_Hide
| W_SetAlwaysOnTop (top : bool)
| W_FlashFrame (flash : bool)
| W_SetWindowLong (style : Z)
| W_XSetWMNormalHints (flags : SizeHint) (width height : Z)
| W_HandleKeyboardEvent (event : NativeWebKeyboardEvent).

(** The window style bits of [SetResizable], from WinUser.h. *)
Definition WS_MAXIMIZEBOX : Z := 0x10000.
Definition WS_MINIMIZEBOX : Z := 0x20000.
Definition WS_THICKFRAME : Z := 0x40000.

(** [~x] on a [DWORD]. *)
Definition DWORD_not (x : Z) : Z := Z.lxor x 0xFFFFFFFF.

(** The inherited [NativeWindow] methods the source calls. *)
Inductive BaseCall :=
| B_NotifyWindowFocus
| B_NotifyWindowBlur
| B_NotifyWindowClosed
| B_FocusWebContents.

(** The code outside this file.  [Widget] is the state of the
    [views::Widget] with everything hanging off it, [NativeWindow] the state
    of the base class.  [ResizingBorderHitTest] is [FramelessView]'s,
    [GenerateAcceleratorTable] is [accelerator_util]'s, [CloseWebContents]
    is the base class's; they live in other files of the repository.

    A call into the host changes the host's state only: it does not call
    back into the object.  This holds of [W_HandleKeyboardEvent] as long as
    the command of a triggered accelerator leaves the window alone. *)
Class Host := {
  Widget : Type;
  NativeWindow : Type;
  MenuModel : Type;
  MenuItem : Type;
  Widget_new : Widget;
  Widget_call : WidgetCall -> Widget -> Widget;
  Widget_IsMinimized : Widget -> bool;
  Widget_GetWindowBoundsInScreen : Widget -> gfx.Rect;
  Widget_GetRestoredBounds : Widget -> gfx.Rect;
  Widget_GetAcceleratedWidget : Widget -> Z;
  Widget_GetWindowLong : Widget -> Z;
  NonClientView_GetWindowBoundsForClientBounds : Widget -> gfx.Rect -> gfx.Rect;
  FrameView_GetBoundsForClientView : Widget -> gfx.Rect;
  FramelessView_ResizingBorderHitTest : Widget -> gfx.Point -> Z;
  GenerateAcceleratorTable :
    gmap Accelerator MenuItem -> MenuModel -> gmap Accelerator MenuItem;
  NativeWindow_call : BaseCall -> NativeWindow -> NativeWindow;
  NativeWindow_GetWebContents : NativeWindow -> bool;
  NativeWindow_IsDevToolsOpened : NativeWindow -> bool;
  NativeWindow_CloseWebContents : NativeWindow -> Widget -> NativeWindow * Widget
}.

(** ** The object *)

Section NativeWindowViews.

Context {host : Host}.

(** The members of [NativeWindowViews].  [base_] and [has_frame_] are
    inherited from [NativeWindow]; [focus_manager_] is what
    [GetFocusManager()] returns and [children_] the child views of the
    contents view, which the object itself is.  A [scoped_ptr] is an
    [option]; a menu bar holds the menu model last given to it.
    [taskbar_] is the shell's set of taskbar tabs, by window handle, and
    [dcheck_failed_] records that a [DCHECK] did not hold. *)
Record NativeWindowViews := mkNativeWindowViews {
  base_ : NativeWindow;
  has_frame_ : bool;
  window_ : Widget;
  focus_manager_ : FocusManager.t;
  children_ : list ChildView;
  global_menu_bar_ : option (option MenuModel);
  menu_bar_ : option (option MenuModel);
  menu_bar_autohide_ : bool;
  menu_bar_visible_ : bool;
  menu_bar_alt_pressed_ : bool;
  use_content_size_ : bool;
  resizable_ : bool;
  title_ : string;
  minimum_size_ : gfx.Size;
  maximum_size_ : gfx.Size;
  accelerator_table_ : gmap Accelerator MenuItem;
  draggable_region_ : option SkRegion.t;
  taskbar_ : gset Z;
  dcheck_failed_ : bool
}.

(** Assignment to one member. *)
Definition set_base_ v (w : NativeWindowViews) : NativeWindowViews :=
  mkNativeWindowViews v (has_frame_ w) (window_ w) (focus_manager_ w)
    (children_ w) (global_menu_bar_ w) (menu_bar_ w) (menu_bar_autohide_ w)
    (menu_bar_visible_ w) (menu_bar_alt_pressed_ w) (use_content_size_ w)
    (resizable_ w) (title_ w) (minimum_size_ w) (maximum_size_ w)
    (accelerator_table_ w) (draggable_region_ w) (taskbar_ w) (dcheck_failed_
    w).

Definition set_window_ v (w : NativeWindowViews) : NativeWindowViews :=
  mkNativeWindowViews (base_ w) (has_frame_ w) v (focus_manager_ w) (children_
    w) (global_menu_bar_ w) (menu_bar_ w) (menu_bar_autohide_ w)
    (menu_bar_visible_ w) (menu_bar_alt_pressed_ w) (use_content_size_ w)
    (resizable_ w) (title_ w) (minimum_size_ w) (maximum_size_ w)
    (accelerator_table_ w) (draggable_region_ w) (taskbar_ w) (dcheck_failed_
    w).

Definition set_focus_manager_ v (w : NativeWindowViews) : NativeWindowViews :=
  mkNativeWindowViews (base_ w) (has_frame_ w) (window_ w) v (children_ w)
    (global_menu_bar_ w) (menu_bar_ w) (menu_bar_autohide_ w)
    (menu_bar_visible_ w) (menu_bar_alt_pressed_ w) (use_content_size_ w)
    (resizable_ w) (title_ w) (minimum_size_ w) (maximum_size_ w)
    (accelerator_table_ w) (draggable_region_ w) (taskbar_ w) (dcheck_failed_
    w).

Definition set_children_ v (w : NativeWindowViews) : NativeWindowViews :=
  mkNativeWindowViews (base_ w) (has_frame_ w) (window_ w) (focus_manager_ w)
    v (global_menu_bar_ w) (menu_bar_ w) (menu_bar_autohide_ w)
    (menu_bar_visible_ w) (menu_bar_alt_pressed_ w) (use_content_size_ w)
    (resizable_ w) (title_ w) (minimum_size_ w) (maximum_size_ w)
    (accelerator_table_ w) (draggable_region_ w) (taskbar_ w) (dcheck_failed_
    w).

Definition set_global_menu_bar_ v (w : NativeWindowViews) : NativeWindowViews :=
  mkNativeWindowViews (base_ w) (has_frame_ w) (window_ w) (focus_manager_ w)
    (children_ w) v (menu_bar_ w) (menu_bar_autohide_ w) (menu_bar_visible_ w)
    (menu_bar_alt_pressed_ w) (use_content_size_ w) (resizable_ w) (title_ w)
    (minimum_size_ w) (maximum_size_ w) (accelerator_table_ w)
    (draggable_region_ w) (taskbar_ w) (dcheck_failed_ w).

Definition set_menu_bar_ v (w : NativeWindowViews) : NativeWindowViews :=
  mkNativeWindowViews (base_ w) (has_frame_ w) (window_ w) (focus_manager_ w)
    (children_ w) (global_menu_bar_ w) v (menu_bar_autohide_ w)
    (menu_bar_visible_ w) (menu_bar_alt_pressed_ w) (use_content_size_ w)
    (resizable_ w) (title_ w) (minimum_size_ w) (maximum_size_ w)
    (accelerator_table_ w) (draggable_region_ w) (taskbar_ w) (dcheck_failed_
    w).

Definition set_menu_bar_autohide_ v (w : NativeWindowViews) : NativeWindowViews :=
  mkNativeWindowViews (base_ w) (has_frame_ w) (window_ w) (focus_manager_ w)
    (children_ w) (global_menu_bar_ w) (menu_bar_ w) v (menu_bar_visible_ w)
    (menu_bar_alt_pressed_ w) (use_content_size_ w) (resizable_ w) (title_ w)
    (minimum_size_ w) (maximum_size_ w) (accelerator_table_ w)
    (draggable_region_ w) (taskbar_ w) (dcheck_failed_ w).

Definition set_menu_bar_visible_ v (w : NativeWindowViews) : NativeWindowViews :=
  mkNativeWindowViews (base_ w) (has_frame_ w) (window_ w) (focus_manager_ w)
    (children_ w) (global_menu_bar_ w) (menu_bar_ w) (menu_bar_autohide_ w) v
    (menu_bar_alt_pressed_ w) (use_content_size_ w) (resizable_ w) (title_ w)
    (minimum_size_ w) (maximum_size_ w) (accelerator_table_ w)
    (draggable_region_ w) (taskbar_ w) (dcheck_failed_ w).

Definition set_menu_bar_alt_pressed_ v (w : NativeWindowViews) : NativeWindowViews :=
  mkNativeWindowViews (base_ w) (has_frame_ w) (window_ w) (focus_manager_ w)
    (children_ w) (global_menu_bar_ w) (menu_bar_ w) (menu_bar_autohide_ w)
    (menu_bar_visible_ w) v (use_content_size_ w) (resizable_ w) (title_ w)
    (minimum_size_ w) (maximum_size_ w) (accelerator_table_ w)
    (draggable_region_ w) (taskbar_ w) (dcheck_failed_ w).

Definition set_use_content_size_ v (w : NativeWindowViews) : NativeWindowViews :=
  mkNativeWindowViews (base_ w) (has_frame_ w) (window_ w) (focus_manager_ w)
    (children_ w) (global_menu_bar_ w) (menu_bar_ w) (menu_bar_autohide_ w)
    (menu_bar_visible_ w) (menu_bar_alt_pressed_ w) v (resizable_ w) (title_
    w) (minimum_size_ w) (maximum_size_ w) (accelerator_table_ w)
    (draggable_region_ w) (taskbar_ w) (dcheck_failed_ w).

Definition set_resizable_ v (w : NativeWindowViews) : NativeWindowViews :=
  mkNativeWindowViews (base_ w) (has_frame_ w) (window_ w) (focus_manager_ w)
    (children_ w) (global_menu_bar_ w) (menu_bar_ w) (menu_bar_autohide_ w)
    (menu_bar_visible_ w) (menu_bar_alt_pressed_ w) (use_content_size_ w) v
    (title_ w) (minimum_size_ w) (maximum_size_ w) (accelerator_table_ w)
    (draggable_region_ w) (taskbar_ w) (dcheck_failed_ w).

Definition set_title_ v (w : NativeWindowViews) : NativeWindowViews :=
  mkNativeWindowViews (base_ w) (has_frame_ w) (window_ w) (focus_manager_ w)
    (children_ w) (global_menu_bar_ w) (menu_bar_ w) (menu_bar_autohide_ w)
    (menu_bar_visible_ w) (menu_bar_alt_pressed_ w) (use_content_size_ w)
    (resizable_ w) v (minimum_size_ w) (maximum_size_ w) (accelerator_table_
    w) (draggable_region_ w) (taskbar_ w) (dcheck_failed_ w).

Definition set_minimum_size_ v (w : NativeWindowViews) : NativeWindowViews :=
  mkNativeWindowViews (base_ w) (has_frame_ w) (window_ w) (focus_manager_ w)
    (children_ w) (global_menu_bar_ w) (menu_bar_ w) (menu_bar_autohide_ w)
    (menu_bar_visible_ w) (menu_bar_alt_pressed_ w) (use_content_size_ w)
    (resizable_ w) (title_ w) v (maximum_size_ w) (accelerator_table_ w)
    (draggable_region_ w) (taskbar_ w) (dcheck_failed_ w).

Definition set_maximum_size_ v (w : NativeWindowViews) : NativeWindowViews :=
  mkNativeWindowViews (base_ w) (has_frame_ w) (window_ w) (focus_manager_ w)
    (children_ w) (global_menu_bar_ w) (menu_bar_ w) (menu_bar_autohide_ w)
    (menu_bar_visible_ w) (menu_bar_alt_pressed_ w) (use_content_size_ w)
    (resizable_ w) (title_ w) (minimum_size_ w) v (accelerator_table_ w)
    (draggable_region_ w) (taskbar_ w) (dcheck_failed_ w).

Definition set_accelerator_table_ v (w : NativeWindowViews) : NativeWindowViews :=
  mkNativeWindowViews (base_ w) (has_frame_ w) (window_ w) (focus_manager_ w)
    (children_ w) (global_menu_bar_ w) (menu_bar_ w) (menu_bar_autohide_ w)
    (menu_bar_visible_ w) (menu_bar_alt_pressed_ w) (use_content_size_ w)
    (resizable_ w) (title_ w) (minimum_size_ w) (maximum_size_ w) v
    (draggable_region_ w) (taskbar_ w) (dcheck_failed_ w).

Definition set_draggable_region_ v (w : NativeWindowViews) : NativeWindowViews :=
  mkNativeWindowViews (base_ w) (has_frame_ w) (window_ w) (focus_manager_ w)
    (children_ w) (global_menu_bar_ w) (menu_bar_ w) (menu_bar_autohide_ w)
    (menu_bar_visible_ w) (menu_bar_alt_pressed_ w) (use_content_size_ w)
    (resizable_ w) (title_ w) (minimum_size_ w) (maximum_size_ w)
    (accelerator_table_ w) v (taskbar_ w) (dcheck_failed_ w).

Definition set_taskbar_ v (w : NativeWindowViews) : NativeWindowViews :=
  mkNativeWindowViews (base_ w) (has_frame_ w) (window_ w) (focus_manager_ w)
    (children_ w) (global_menu_bar_ w) (menu_bar_ w) (menu_bar_autohide_ w)
    (menu_bar_visible_ w) (menu_bar_alt_pressed_ w) (use_content_size_ w)
    (resizable_ w) (title_ w) (minimum_size_ w) (maximum_size_ w)
    (accelerator_table_ w) (draggable_region_ w) v (dcheck_failed_ w).

Definition set_dcheck_failed_ v (w : NativeWindowViews) : NativeWindowViews :=
  mkNativeWindowViews (base_ w) (has_frame_ w) (window_ w) (focus_manager_ w)
    (children_ w) (global_menu_bar_ w) (menu_bar_ w) (menu_bar_autohide_ w)
    (menu_bar_visible_ w) (menu_bar_alt_pressed_ w) (use_content_size_ w)
    (resizable_ w) (title_ w) (minimum_size_ w) (maximum_size_ w)
    (accelerator_table_ w) (draggable_region_ w) (taskbar_ w) v.

(** ** The state monad of the methods *)

Definition M (A : Type) : Type := NativeWindowViews -> A * NativeWindowViews.

Definition ret {A} (a : A) : M A := fun w => (a, w).

Definition bind {A B} (m : M A) (f : A -> M B) : M B :=
  fun w => let (a, w') := m w in f a w'.

Notation "'do' x <- c1 ; c2" := (bind c1 (fun x => c2))
  (at level 10, x name, c1 at level 100, c2 at level 200,
   format "'[v' 'do'  x  <-  c1 ; '/' c2 ']'").

Definition gets {A} (f : NativeWindowViews -> A) : M A := fun w => (f w, w).

Definition modify (f : NativeWindowViews -> NativeWindowViews) : M unit :=
  fun w => (tt, f w).

Definition nop : M unit := ret tt.

(** The state a method leaves, and the value it returns. *)
Definition exec {A} (m : M A) (w : NativeWindowViews) : NativeWindowViews :=
  snd (m w).

Definition eval {A} (m : M A) (w : NativeWindowViews) : A := fst (m w).

(** [window_->call(...)] *)
Definition call_window (c : WidgetCall) : M unit :=
  modify (fun w => set_window_ (Widget_call c (window_ w)) w).

(** A call of an inherited method. *)
Definition call_base (c : BaseCall) : M unit :=
  modify (fun w => set_base_ (NativeWindow_call c (base_ w)) w).

(** A call on [GetFocusManager()]. *)
Definition call_focus_manager (f : FocusManager.t -> FocusManager.t) : M unit :=
  modify (fun w => set_focus_manager_ (f (focus_manager_ w)) w).

(** [DCHECK_EQ(a, b)]: a failed check is recorded in [dcheck_failed_]. *)
Definition DCHECK_EQ (a b : Z) : M unit :=
  if a =? b then nop else modify (set_dcheck_failed_ true).

(** A [scoped_ptr] tested as a condition. *)
Definition non_null {A} (p : option A) : bool :=
  match p with Some _ => true | None => false end.

(** [View::Layout()] and the child views. *)
Definition Layout : M unit := call_window W_Layout.

Definition child_count : M Z := gets (fun w => View.child_count (children_ w)).

Definition AddChildView (v : ChildView) : M unit :=
  modify (fun w => set_children_ (View.AddChildView v (children_ w)) w).

Definition RemoveChildView (v : ChildView) : M unit :=
  modify (fun w => set_children_ (View.RemoveChildView v (children_ w)) w).

(** ** The methods *)

Variable os : Platform.

Definition IsAltKey (event : NativeWebKeyboardEvent) : bool :=
  match os with
  | USE_X11 =>
      (* 164 and 165 represent VK_LALT and VK_RALT. *)
      (windowsKeyCode event =? 164) || (windowsKeyCode event =? 165)
  | OS_WIN => windowsKeyCode event =? VKEY_MENU
  end.

Definition IsAltModifier (event : NativeWebKeyboardEvent) : bool :=
  (modifiers event =? WebInputEvent.AltKey) ||
  (modifiers event =? Z.lor WebInputEvent.AltKey WebInputEvent.IsLeft) ||
  (modifiers event =? Z.lor WebInputEvent.AltKey WebInputEvent.IsRight).

Definition Close : M unit := call_window W_Close.

Definition CloseImmediately : M unit := call_window W_CloseNow.

Definition Move (b : gfx.Rect) : M unit := call_window (W_SetBounds b).

Definition Focus (focus : bool) : M unit :=
  if focus then call_window W_Activate else call_window W_Deactivate.

Definition Show : M unit := call_window W_Show.

Definition Hide : M unit := call_window W_Hide.

Definition Maximize : M unit := call_window W_Maximize.

Definition Unmaximize : M unit := call_window W_Restore.

Definition Minimize : M unit := call_window W_Minimize.

Definition Restore : M unit := call_window W_Restore.

Definition IsMinimized : M bool :=
  gets (fun w => Widget_IsMinimized (window_ w)).

Definition SetFullscreen (fullscreen : bool) : M unit :=
  call_window (W_SetFullscreen fullscreen).

Definition SetSize (s : gfx.Size) : M unit := call_window (W_SetSize s).

Definition GetSize : M gfx.Size :=
  do minimized <- (if is_win os then IsMinimized else ret false);
  if minimized
  then gets (fun w => gfx.size (Widget_GetRestoredBounds (window_ w)))
  else gets (fun w => gfx.size (Widget_GetWindowBoundsInScreen (window_ w))).

Definition GetPosition : M gfx.Point :=
  do minimized <- (if is_win os then IsMinimized else ret false);
  if minimized
  then gets (fun w => gfx.origin (Widget_GetRestoredBounds (window_ w)))
  else gets (fun w => gfx.origin (Widget_GetWindowBoundsInScreen (window_ w))).

Definition SetPosition (position : gfx.Point) : M unit :=
  do s <- GetSize;
  call_window (W_SetBounds (gfx.mkRect position s)).

Definition Center : M unit :=
  do s <- GetSize;
  call_window (W_CenterWindow s).

Definition ContentBoundsToWindowBounds (b : gfx.Rect) : M gfx.Rect :=
  do window_bounds <-
    gets (fun w => NonClientView_GetWindowBoundsForClientBounds (window_ w) b);
  do menu_bar <- gets menu_bar_;
  do menu_bar_visible <- gets menu_bar_visible_;
  if non_null menu_bar && menu_bar_visible
  then ret (gfx.Rect_set_height
               (gfx.Rect_height window_bounds + kMenuBarHeight os) window_bounds)
  else ret window_bounds.

Definition SetContentSize (s : gfx.Size) : M unit :=
  do has_frame <- gets has_frame_;
  if negb has_frame then SetSize s
  else
    do b <- gets (fun w => Widget_GetWindowBoundsInScreen (window_ w));
    do window_bounds <- ContentBoundsToWindowBounds (gfx.Rect_set_size s b);
    call_window (W_SetBounds window_bounds).

Definition GetContentSize : M gfx.Size :=
  do has_frame <- gets has_frame_;
  if negb has_frame then GetSize
  else
    do content_size <-
      gets (fun w => gfx.size (FrameView_GetBoundsForClientView (window_ w)));
    do menu_bar <- gets menu_bar_;
    do menu_bar_visible <- gets menu_bar_visible_;
    if non_null menu_bar && menu_bar_visible
    then ret (gfx.Size_set_height
                 (gfx.height content_size - kMenuBarHeight os) content_size)
    else ret content_size.

Definition SetMinimumSize (s : gfx.Size) : M unit :=
  do _ <- modify (set_minimum_size_ s);
  if is_x11 os
  then call_window (W_XSetWMNormalHints PMinSize (gfx.width s) (gfx.height s))
  else nop.

Definition SetMaximumSize (s : gfx.Size) : M unit :=
  do _ <- modify (set_maximum_size_ s);
  if is_x11 os
  then call_window (W_XSetWMNormalHints PMaxSize (gfx.width s) (gfx.height s))
  else nop.

Definition SetResizable (resizable : bool) : M unit :=
  do _ <- modify (set_resizable_ resizable);
  do has_frame <- gets has_frame_;
  if is_win os && has_frame then
    (* WS_MAXIMIZEBOX => Maximize button
       WS_MINIMIZEBOX => Minimize button
       WS_THICKFRAME => Resize handle *)
    do style <- gets (fun w => Widget_GetWindowLong (window_ w));
    call_window
      (W_SetWindowLong
         (if resizable
          then Z.lor style (Z.lor (Z.lor WS_MAXIMIZEBOX WS_MINIMIZEBOX) WS_THICKFRAME)
          else Z.lor (Z.land style (DWORD_not (Z.lor WS_MAXIMIZEBOX WS_THICKFRAME)))
                     WS_MINIMIZEBOX))
  else nop.
  (* FIXME Implement me for X11. *)

Definition SetAlwaysOnTop (top : bool) : M unit :=
  call_window (W_SetAlwaysOnTop top).

Definition FlashFrame (flash : bool) : M unit :=
  call_window (W_FlashFrame flash).

Definition CanResize : M bool := gets resizable_.

Definition SetTitle (title : string) : M unit :=
  do _ <- modify (set_title_ title);
  call_window W_UpdateWindowTitle.

Definition SetKiosk (kiosk : bool) : M unit := SetFullscreen kiosk.

(** [GetAcceleratedWidget()], the native handle of the window. *)
Definition GetAcceleratedWidget : M Z :=
  gets (fun w => Widget_GetAcceleratedWidget (window_ w)).

Definition SetSkipTaskbar (com : ComEnv) (skip : bool) : M unit :=
  match os with
  | OS_WIN =>
      if FAILED (CreateInstance_result com) || FAILED (HrInit_result com)
      then nop
      else
        do hwnd <- GetAcceleratedWidget;
        if skip
        then modify (fun w => set_taskbar_ (taskbar_ w ∖ {[hwnd]}) w)
        else modify (fun w => set_taskbar_ ({[hwnd]} ∪ taskbar_ w) w)
  | USE_X11 => nop
  end.

Definition SetMenuBarVisibility (visible : bool) : M unit :=
  do menu_bar <- gets menu_bar_;
  if negb (non_null menu_bar) then nop
  else
    do _ <- modify (set_menu_bar_visible_ visible);
    if visible then
      do n <- child_count;
      do _ <- DCHECK_EQ n 1;
      AddChildView MenuBarView
    else
      do n <- child_count;
      do _ <- DCHECK_EQ n 2;
      RemoveChildView MenuBarView.

(** The loop of [RegisterAccelerators] over the entries of the table. *)
Fixpoint RegisterAccelerators_loop (iter : list Accelerator) : M unit :=
  match iter with
  | [] => nop
  | first :: rest =>
      do _ <- call_focus_manager
                (FocusManager.RegisterAccelerator first kNormalPriority ThisWindow);
      RegisterAccelerators_loop rest
  end.

Definition RegisterAccelerators (menu_model : MenuModel) : M unit :=
  (* Clear previous accelerators. *)
  do _ <- modify (set_accelerator_table_ ∅);
  do _ <- call_focus_manager (FocusManager.UnregisterAccelerators ThisWindow);
  (* Register accelerators with focus manager. *)
  do _ <- modify (fun w =>
            set_accelerator_table_
              (GenerateAcceleratorTable (accelerator_table_ w) menu_model) w);
  do table <- gets accelerator_table_;
  RegisterAccelerators_loop (AcceleratorTable_keys table).

(** The X11 part of [SetMenu]; it answers whether [SetMenu] returns from
    it. *)
Definition SetMenu_global (env : GlobalMenuEnv) (menu_model : MenuModel) : M bool :=
  do global_menu_bar <- gets global_menu_bar_;
  do _ <- (if negb (non_null global_menu_bar) && ShouldUseGlobalMenuBar env
           then modify (set_global_menu_bar_ (Some None))
           else nop);
  (* Use global application menu bar when possible. *)
  do global_menu_bar <- gets global_menu_bar_;
  if non_null global_menu_bar && IsServerStarted env then
    do _ <- modify (set_global_menu_bar_ (Some (Some menu_model)));
    ret true
  else ret false.

Definition SetMenu (env : GlobalMenuEnv) (menu_model : MenuModel) : M unit :=
  do _ <- RegisterAccelerators menu_model;
  do returned <- (if is_x11 os then SetMenu_global env menu_model else ret false);
  if returned then nop
  else
    (* Do not show menu bar in frameless window. *)
    do has_frame <- gets has_frame_;
    if negb has_frame then nop
    else
      do menu_bar <- gets menu_bar_;
      do _ <- (if negb (non_null menu_bar) then
                 do content_size <- GetContentSize;
                 do _ <- modify (set_menu_bar_ (Some None));
                 do menu_bar_autohide <- gets menu_bar_autohide_;
                 if negb menu_bar_autohide then
                   do _ <- SetMenuBarVisibility true;
                   do use_content_size <- gets use_content_size_;
                   if use_content_size then SetContentSize content_size else nop
                 else nop
               else nop);
      do _ <- modify (set_menu_bar_ (Some (Some menu_model)));
      Layout.

(** The loop of [UpdateDraggableRegions], on the region being built. *)
Fixpoint UpdateDraggableRegions_loop
    (iter : list DraggableRegion) (draggable_region : SkRegion.t) : SkRegion.t :=
  match iter with
  | [] => draggable_region
  | region :: rest =>
      UpdateDraggableRegions_loop rest
        (SkRegion.op
           (gfx.Rect_x (bounds region))
           (gfx.Rect_y (bounds region))
           (gfx.Rect_right (bounds region))
           (gfx.Rect_bottom (bounds region))
           (if draggable region then SkRegion.kUnion_Op else SkRegion.kDifference_Op)
           draggable_region)
  end.

Definition UpdateDraggableRegions (regions : list DraggableRegion) : M unit :=
  do has_frame <- gets has_frame_;
  if has_frame then nop
  else
    (* By default, the whole window is non-draggable. We need to explicitly
       include those draggable regions. *)
    modify (set_draggable_region_
              (Some (UpdateDraggableRegions_loop regions SkRegion.empty))).

(** [is_window] tells whether the widget of the notification is [window_]. *)
Definition OnWidgetActivationChanged (is_window active : bool) : M unit :=
  if negb is_window then nop
  else
    do _ <- (if active then call_base B_NotifyWindowFocus
             else call_base B_NotifyWindowBlur);
    do has_web_contents <- gets (fun w => NativeWindow_GetWebContents (base_ w));
    do devtools_opened <- gets (fun w => NativeWindow_IsDevToolsOpened (base_ w));
    do _ <- (if active && has_web_contents && negb devtools_opened
             then call_base B_FocusWebContents
             else nop);
    (* Hide menu bar when window is blured. *)
    do menu_bar_autohide <- gets menu_bar_autohide_;
    do menu_bar_visible <- gets menu_bar_visible_;
    if negb active && menu_bar_autohide && menu_bar_visible then
      do _ <- SetMenuBarVisibility false;
      Layout
    else nop.

Definition DeleteDelegate : M unit := call_base B_NotifyWindowClosed.

Definition ShouldDescendIntoChildForEventHandling (location : gfx.Point) : M bool :=
  (* App window should claim mouse events that fall within the draggable
     region. *)
  do draggable_region <- gets draggable_region_;
  if match draggable_region with
     | Some r => SkRegion.contains r (gfx.x location) (gfx.y location)
     | None => false
     end
  then ret false
  else
    (* And the events on border for dragging resizable frameless window. *)
    do has_frame <- gets has_frame_;
    do can_resize <- CanResize;
    if negb has_frame && can_resize then
      do hit <- gets (fun w =>
                  FramelessView_ResizingBorderHitTest (window_ w) location);
      ret (hit =? HTNOWHERE)
    else ret true.

Definition HandleMouseDown : M unit :=
  (* Hide menu bar when web view is clicked. *)
  do menu_bar_autohide <- gets menu_bar_autohide_;
  do menu_bar_visible <- gets menu_bar_visible_;
  if menu_bar_autohide && menu_bar_visible then
    do _ <- SetMenuBarVisibility false;
    Layout
  else nop.

Definition HandleKeyboardEvent (event : NativeWebKeyboardEvent) : M unit :=
  do _ <- call_window (W_HandleKeyboardEvent event);
  do menu_bar_autohide <- gets menu_bar_autohide_;
  if negb menu_bar_autohide then nop
  else
    (* Toggle the menu bar only when a single Alt is released. *)
    do menu_bar_alt_pressed <- gets menu_bar_alt_pressed_;
    if WebInputEvent.Type_eqb (type event) WebInputEvent.RawKeyDown &&
       IsAltKey event && IsAltModifier event then
      (* When a single Alt is pressed: *)
      modify (set_menu_bar_alt_pressed_ true)
    else if WebInputEvent.Type_eqb (type event) WebInputEvent.KeyUp &&
            IsAltKey event && (modifiers event =? 0) && menu_bar_alt_pressed then
      (* When a single Alt is released right after a Alt is pressed: *)
      do _ <- modify (set_menu_bar_alt_pressed_ false);
      do menu_bar_visible <- gets menu_bar_visible_;
      do _ <- SetMenuBarVisibility (negb menu_bar_visible);
      Layout
    else
      (* When any other keys except single Alt have been pressed/released: *)
      modify (set_menu_bar_alt_pressed_ false).

(** The inherited [CloseWebContents()]. *)
Definition CloseWebContents : M unit :=
  modify (fun w =>
    let (b, wd) := NativeWindow_CloseWebContents (base_ w) (window_ w) in
    set_window_ wd (set_base_ b w)).

(** [NativeWindowClientView::CanClose], whose contents view is the window. *)
Definition CanClose : M bool :=
  do _ <- CloseWebContents;
  ret false.

(** ** Construction *)

Definition INT_MAX : Z := 2147483647.

(** The members after the constructor's initialiser list.  [base] and
    [has_frame] come from the base-class constructor, [taskbar] is the
    shell's state at that time.  The widget is new: its focus manager has
    no registration and the contents view has no child. *)
Definition initial_members
    (base : NativeWindow) (has_frame : bool) (taskbar : gset Z) : NativeWindowViews :=
  {| base_ := base;
     has_frame_ := has_frame;
     window_ := Widget_new;
     focus_manager_ := [];
     children_ := [];
     global_menu_bar_ := None;
     menu_bar_ := None;
     menu_bar_autohide_ := false;
     menu_bar_visible_ := false;
     menu_bar_alt_pressed_ := false;
     use_content_size_ := false;
     resizable_ := true;
     title_ := EmptyString;
     minimum_size_ := gfx.Size_new 0 0;
     (* We need to set a default maximum window size here otherwise Windows
        will not allow us to resize the window larger than scree. *)
     maximum_size_ := gfx.Size_new (INT_MAX / 10) (INT_MAX / 10);
     accelerator_table_ := ∅;
     draggable_region_ := None;
     taskbar_ := taskbar;
     dcheck_failed_ := false |}.

(** The body of the constructor. *)
Definition constructor_body (options : Options) : M unit :=
  do _ <- modify (fun w =>
            set_resizable_ (snd (Options_Get (kResizable options) (resizable_ w))) w);
  do _ <- modify (fun w =>
            set_title_ (snd (Options_Get (kTitle options) (title_ w))) w);
  do _ <- modify (fun w =>
            set_menu_bar_autohide_
              (snd (Options_Get (kAutoHideMenuBar options) (menu_bar_autohide_ w))) w);
  let width := snd (Options_Get (kWidth options) 800) in
  let height := snd (Options_Get (kHeight options) 600) in
  let window_bounds := gfx.Rect_new 0 0 width height in
  do _ <- call_window W_AddObserver;
  do has_frame <- gets has_frame_;
  let skip_taskbar := Options_Get (kSkipTaskbar options) false in
  let params :=
    {| params_bounds := window_bounds;
       params_type :=
         (* FIXME Find out how to do this dynamically on Linux. *)
         if is_x11 os && fst skip_taskbar && snd skip_taskbar
         then TYPE_BUBBLE else TYPE_WINDOW;
       params_top_level := true;
       params_remove_standard_frame := negb has_frame |} in
  do _ <- call_window (W_Init params);
  (* Add web view.  The layout manager and the background set here belong
     to the toolkit's side of the contents view. *)
  do _ <- AddChildView WebView;
  do window_bounds <-
    (if has_frame then
       let use_content_size := Options_Get (kUseContentSize options) in
       do _ <- modify (fun w =>
                 set_use_content_size_ (snd (use_content_size (use_content_size_ w))) w);
       do use_content_size_now <- gets use_content_size_;
       if fst (use_content_size false) && use_content_size_now
       then ContentBoundsToWindowBounds window_bounds
       else ret window_bounds
     else ret window_bounds);
  do _ <- call_window W_UpdateWindowIcon;
  do _ <- call_window (W_CenterWindow (gfx.size window_bounds));
  Layout.

(** [new NativeWindowViews(web_contents, options)] *)
Definition NativeWindowViews_new
    (base : NativeWindow) (has_frame : bool) (taskbar : gset Z)
    (options : Options) : NativeWindowViews :=
  exec (constructor_body options) (initial_members base has_frame taskbar).

(** ** Runs

    The entry points through which the embedder and the toolkit reach the
    object.  [SetMenuBarVisibility], [RegisterAccelerators] and
    [ContentBoundsToWindowBounds] are helpers that only the methods of the
    class call. *)
Inductive Method :=
| m_Close
| m_CloseImmediately
| m_Move (b : gfx.Rect)
| m_Focus (focus : bool)
| m_Show
| m_Hide
| m_Maximize
| m_Unmaximize
| m_Minimize
| m_Restore
| m_SetFullscreen (fullscreen : bool)
| m_SetSize (s : gfx.Size)
| m_SetContentSize (s : gfx.Size)
| m_SetMinimumSize (s : gfx.Size)
| m_SetMaximumSize (s : gfx.Size)
| m_SetResizable (resizable : bool)
| m_SetAlwaysOnTop (top : bool)
| m_Center
| m_SetPosition (position : gfx.Point)
| m_SetTitle (title : string)
| m_FlashFrame (flash : bool)
| m_SetSkipTaskbar (com : ComEnv) (skip : bool)
| m_SetKiosk (kiosk : bool)
| m_SetMenu (env : GlobalMenuEnv) (menu_model : MenuModel)
| m_UpdateDraggableRegions (regions : list DraggableRegion)
| m_OnWidgetActivationChanged (is_window active : bool)
| m_DeleteDelegate
| m_HandleMouseDown
| m_HandleKeyboardEvent (event : NativeWebKeyboardEvent)
| m_CanClose.

Definition call (m : Method) : M unit :=
  match m with
  | m_Close => Close
  | m_CloseImmediately => CloseImmediately
  | m_Move b => Move b
  | m_Focus focus => Focus focus
  | m_Show => Show
  | m_Hide => Hide
  | m_Maximize => Maximize
  | m_Unmaximize => Unmaximize
  | m_Minimize => Minimize
  | m_Restore => Restore
  | m_SetFullscreen fullscreen => SetFullscreen fullscreen
  | m_SetSize s => SetSize s
  | m_SetContentSize s => SetContentSize s
  | m_SetMinimumSize s => SetMinimumSize s
  | m_SetMaximumSize s => SetMaximumSize s
  | m_SetResizable resizable => SetResizable resizable
  | m_SetAlwaysOnTop top => SetAlwaysOnTop top
  | m_Center => Center
  | m_SetPosition position => SetPosition position
  | m_SetTitle title => SetTitle title
  | m_FlashFrame flash => FlashFrame flash
  | m_SetSkipTaskbar com skip => SetSkipTaskbar com skip
  | m_SetKiosk kiosk => SetKiosk kiosk
  | m_SetMenu env menu_model => SetMenu env menu_model
  | m_UpdateDraggableRegions regions => UpdateDraggableRegions regions
  | m_OnWidgetActivationChanged is_window active =>
      OnWidgetActivationChanged is_window active
  | m_DeleteDelegate => DeleteDelegate
  | m_HandleMouseDown => HandleMouseDown
  | m_HandleKeyboardEvent event => HandleKeyboardEvent event
  | m_CanClose => do _ <- CanClose; nop
  end.

(** The state after a sequence of calls. *)
Definition run (calls : list Method) (w : NativeWindowViews) : NativeWindowViews :=
  fold_left (fun w m => exec (call m) w) calls w.

End NativeWindowViews.

Arguments NativeWindowViews : clear implicits.
Arguments M : clear implicits.
Arguments Method : clear implicits.

(** ** Further methods

    The readers of the members that have a setter, and the choice of the
    frame view. *)

(** What [CreateNonClientFrameView] returns: an object of one of three
    frame view classes, or [NULL], on which the toolkit takes its default
    frame. *)
Inductive NonClientFrameView :=
| NULL
| WinFrameView
| NativeFrameView
| FramelessView.

Section FurtherMethods.

Context {host : Host}.

Variable os : Platform.

Definition IsResizable : M host bool := gets resizable_.

Definition CanMaximize : M host bool := gets resizable_.

Definition GetTitle : M host string := gets title_.

Definition GetMinimumSize : M host gfx.Size := gets minimum_size_.

Definition GetMaximumSize : M host gfx.Size := gets maximum_size_.

(** [IsAeroGlassEnabled] is the answer of [ui::win::IsAeroGlassEnabled()]. *)
Definition CreateNonClientFrameView (IsAeroGlassEnabled : bool)
    : M host NonClientFrameView :=
  match os with
  | OS_WIN => if IsAeroGlassEnabled then ret WinFrameView else ret NULL
  | USE_X11 =>
      bind (gets has_frame_) (fun has_frame =>
      if has_frame then ret NativeFrameView else ret FramelessView)
  end.

End FurtherMethods.

(** ** A small host

    A toolkit in which a widget is its bounds, its restored bounds and its
    minimized flag; it is used to run the methods on concrete windows. *)
Module SimpleHost.

Record SimpleWidget := mkSimpleWidget {
  bounds_in_screen : gfx.Rect;
  restored_bounds : gfx.Rect;
  minimized : bool
}.

Definition simple_call (c : WidgetCall) (wd : SimpleWidget) : SimpleWidget :=
  match c with
  | W_Init params =>
      mkSimpleWidget (params_bounds params) (params_bounds params) false
  | W_SetBounds b => mkSimpleWidget b b (minimized wd)
  | W_SetSize s =>
      let b := gfx.Rect_set_size s (bounds_in_screen wd) in
      mkSimpleWidget b b (minimized wd)
  | W_Minimize =>
      (* a minimized window is parked off screen *)
      mkSimpleWidget (gfx.Rect_new (-32000) (-32000) 160 28) (restored_bounds wd) true
  | W_Restore =>
      mkSimpleWidget (restored_bounds wd) (restored_bounds wd) false
  | _ => wd
  end.

(** The border test of a frame five pixels wide around the window. *)
Definition simple_hit_test (wd : SimpleWidget) (p : gfx.Point) : Z :=
  let b := bounds_in_screen wd in
  if (gfx.x p <? 5) || (gfx.y p <? 5) ||
     (gfx.Rect_width b - 5 <=? gfx.x p) || (gfx.Rect_height b - 5 <=? gfx.y p)
  then 1 else HTNOWHERE.

(** A menu model is the list of its accelerators. *)
Definition simple_generate
    (table : gmap Accelerator nat) (menu_model : list Accelerator)
    : gmap Accelerator nat :=
  fold_left (fun t a => <[a := 0%nat]> t) menu_model table.

#[export] Instance simple_host : Host := {|
  Widget := SimpleWidget;
  NativeWindow := unit;
  MenuModel := list Accelerator;
  MenuItem := nat;
  Widget_new := mkSimpleWidget (gfx.Rect_new 0 0 0 0) (gfx.Rect_new 0 0 0 0) false;
  Widget_call := simple_call;
  Widget_IsMinimized := minimized;
  Widget_GetWindowBoundsInScreen := bounds_in_screen;
  Widget_GetRestoredBounds := restored_bounds;
  Widget_GetAcceleratedWidget := fun _ => 42;
  Widget_GetWindowLong := fun _ => 0;
  NonClientView_GetWindowBoundsForClientBounds := fun _ b =>
    gfx.Rect_new (gfx.Rect_x b - 4) (gfx.Rect_y b - 30)
                 (gfx.Rect_width b + 8) (gfx.Rect_height b + 34);
  FrameView_GetBoundsForClientView := fun wd =>
    let b := bounds_in_screen wd in
    gfx.Rect_new 4 30 (gfx.Rect_width b - 8) (gfx.Rect_height b - 34);
  FramelessView_ResizingBorderHitTest := simple_hit_test;
  GenerateAcceleratorTable := simple_generate;
  NativeWindow_call := fun _ b => b;
  NativeWindow_GetWebContents := fun _ => true;
  NativeWindow_IsDevToolsOpened := fun _ => false;
  NativeWindow_CloseWebContents := fun b wd => (b, wd)
|}.

(** No option given. *)
Definition no_options : Options :=
  mkOptions None None None None None None None.

(** Only [auto-hide-menu-bar] given, as true. *)
Definition autohide_options : Options :=
  mkOptions None None (Some true) None None None None.

End SimpleHost.

(** * Vocabulary of the statements *)

Section Vocabulary.

Context {host : Host}.

Implicit Types w : NativeWindowViews host.

(** [w'] is [w] but for [window_]. *)
Definition only_window_changed w w' : Prop :=
  w' = set_window_ (window_ w') w.

(** [w'] is [w] but for [draggable_region_]. *)
Definition only_draggable_region_changed w w' : Prop :=
  w' = set_draggable_region_ (draggable_region_ w') w.

(** [w'] is [w] but for [taskbar_]. *)
Definition only_taskbar_changed w w' : Prop :=
  w' = set_taskbar_ (taskbar_ w') w.


(** Whether [draggable_region_] is set and holds the point. *)
Definition in_draggable_region w (location : gfx.Point) : Prop :=
  exists region,
    draggable_region_ w = Some region /\
    SkRegion.contains region (gfx.x location) (gfx.y location) = true.

(** The region of a list of draggable regions, in words: start from the
    empty region and go through the list in order, adding the rectangle of
    a draggable entry and removing the rectangle of a non-draggable one. *)
Definition region_of_list (regions : list DraggableRegion) : SkRegion.t :=
  fold_left
    (fun acc region =>
       if draggable region
       then SkRegion.union acc (SkRegion.of_rect (bounds region))
       else SkRegion.difference acc (SkRegion.of_rect (bounds region)))
    regions SkRegion.empty.

(** The registration [RegisterAccelerators] makes for one accelerator. *)
Definition window_registration (a : Accelerator) : Registration :=
  mkRegistration a kNormalPriority ThisWindow.

(** The web view is always a child of the contents view; the menu bar comes
    after it exactly while [menu_bar_visible_] is set, which needs a menu
    bar; and no [DCHECK] has failed. *)
Definition menu_bar_invariant w : Prop :=
  dcheck_failed_ w = false /\
  children_ w = (if menu_bar_visible_ w then [WebView; MenuBarView] else [WebView]) /\
  (menu_bar_visible_ w = true -> non_null (menu_bar_ w) = true).

(** The members the invariant reads. *)
Definition menu_bar_part w : bool * list ChildView * bool * bool :=
  (dcheck_failed_ w, children_ w, menu_bar_visible_ w, non_null (menu_bar_ w)).

(** The methods that keep away from the menu bar and the child views. *)
Definition leaves_menu_bar (m : Method host) : bool :=
  match m with
  | m_SetMenu _ _ | m_OnWidgetActivationChanged _ _
  | m_HandleMouseDown | m_HandleKeyboardEvent _ => false
  | _ => true
  end.

Variable os : Platform.

(** A [RawKeyDown] of an Alt key whose modifiers are the Alt modifier
    alone, or the Alt modifier with [IsLeft] or with [IsRight]. *)
Definition single_alt_pressed (event : NativeWebKeyboardEvent) : Prop :=
  type event = WebInputEvent.RawKeyDown /\
  IsAltKey os event = true /\
  (modifiers event = WebInputEvent.AltKey \/
   modifiers event = Z.lor WebInputEvent.AltKey WebInputEvent.IsLeft \/
   modifiers event = Z.lor WebInputEvent.AltKey WebInputEvent.IsRight).

(** A [KeyUp] of an Alt key with no modifier. *)
Definition single_alt_released (event : NativeWebKeyboardEvent) : Prop :=
  type event = WebInputEvent.KeyUp /\
  IsAltKey os event = true /\
  modifiers event = 0.

End Vocabulary.

(** ** Concrete windows

    Windows of the small host, on which the statements are run. *)

Import SimpleHost.

(** [new NativeWindowViews(web_contents, options)] in the small host. *)
Definition new_window
    (os : Platform) (has_frame : bool) (taskbar : gset Z) (options : Options)
    : NativeWindowViews simple_host :=
  NativeWindowViews_new os tt has_frame taskbar options.

(** A framed window of the Windows build, as constructed. *)
Definition framed_window : NativeWindowViews simple_host :=
  new_window OS_WIN true {[42]} no_options.

(** The same window after [Minimize()]. *)
Definition minimized_window : NativeWindowViews simple_host :=
  exec Minimize framed_window.

(** A frameless window of the X11 build with one draggable strip along its
    top edge, out of which a button is cut. *)
Definition title_strip : list DraggableRegion :=
  [mkDraggableRegion true (gfx.Rect_new 0 0 800 30);
   mkDraggableRegion false (gfx.Rect_new 760 0 40 30)].

Definition frameless_window : NativeWindowViews simple_host :=
  exec (UpdateDraggableRegions title_strip)
       (new_window USE_X11 false ∅ no_options).

(** Events of the Alt key of the Windows build: pressed alone, and
    released. *)
Definition alt_key (t : WebInputEvent.Type_) (m : Z) : NativeWebKeyboardEvent :=
  mkKeyEvent t VKEY_MENU m.

Definition alt_down : NativeWebKeyboardEvent :=
  alt_key WebInputEvent.RawKeyDown WebInputEvent.AltKey.

Definition alt_up : NativeWebKeyboardEvent := alt_key WebInputEvent.KeyUp 0.

(** A framed window with autohide on and no menu set, after a single Alt
    was pressed. *)
Definition autohide_window : NativeWindowViews simple_host :=
  exec (HandleKeyboardEvent OS_WIN alt_down)
       (new_window OS_WIN true ∅ autohide_options).

(** The same with a menu set before the key press. *)
Definition autohide_menu_window : NativeWindowViews simple_host :=
  exec (HandleKeyboardEvent OS_WIN alt_down)
       (exec (SetMenu OS_WIN (mkGlobalMenuEnv false false) [(65, 0, 2)])
             (new_window OS_WIN true ∅ autohide_options)).

(** A window whose focus manager already holds a registration of the
    window, left from an earlier menu, and one of another target. *)
Definition window_with_old_menu : NativeWindowViews simple_host :=
  set_focus_manager_
    [mkRegistration (81, 0, 2) kNormalPriority ThisWindow;
     mkRegistration (81, 0, 2) kNormalPriority (OtherTarget 1)]
    (set_accelerator_table_ {[ (81, 0, 2) := 0%nat ]} framed_window).

(** A menu with one accelerator, Alt+A. *)
Definition one_item_menu : @MenuModel simple_host := [(65, 0, 2)].

(** The menu is set, then the web view is clicked. *)
Definition menu_then_click : list (Method simple_host) :=
  [m_SetMenu (mkGlobalMenuEnv false false) one_item_menu; m_HandleMouseDown].

(** ** Vocabulary of the further statements *)

Section FurtherVocabulary.

Context {host : Host}.

Implicit Types w : NativeWindowViews host.

(** The members behind the menu bar, the accelerators and the draggable
    region; most methods leave all of them alone. *)
Record Core := mkCore {
  core_has_frame : bool;
  core_autohide : bool;
  core_use_content_size : bool;
  core_alt_pressed : bool;
  core_visible : bool;
  core_failed : bool;
  core_children : list ChildView;
  core_menu_bar : option (option MenuModel);
  core_global_menu_bar : option (option MenuModel);
  core_draggable_region : option SkRegion.t;
  core_focus_manager : FocusManager.t;
  core_accelerator_table : gmap Accelerator MenuItem
}.

Definition core w : Core :=
  {| core_has_frame := has_frame_ w;
     core_autohide := menu_bar_autohide_ w;
     core_use_content_size := use_content_size_ w;
     core_alt_pressed := menu_bar_alt_pressed_ w;
     core_visible := menu_bar_visible_ w;
     core_failed := dcheck_failed_ w;
     core_children := children_ w;
     core_menu_bar := menu_bar_ w;
     core_global_menu_bar := global_menu_bar_ w;
     core_draggable_region := draggable_region_ w;
     core_focus_manager := focus_manager_ w;
     core_accelerator_table := accelerator_table_ w |}.

(** The methods that leave the core alone. *)
Definition keeps_core (m : Method host) : bool :=
  match m with
  | m_SetMenu _ _ | m_UpdateDraggableRegions _
  | m_OnWidgetActivationChanged _ _
  | m_HandleMouseDown | m_HandleKeyboardEvent _ => false
  | _ => true
  end.

(** Whether a draggable region covers a point: the point lies between
    the near edges and the far edges [right()] and [bottom()] as the code
    computes them, so a rectangle whose far edge wraps covers nothing. *)
Definition covers (region : DraggableRegion) (px py : Z) : Prop :=
  gfx.Rect_x (bounds region) <= px < gfx.Rect_right (bounds region) /\
  gfx.Rect_y (bounds region) <= py < gfx.Rect_bottom (bounds region).

#[export] Instance covers_dec region px py : Decision (covers region px py).
Proof. unfold covers. apply _. Defined.

(** Whether the last entry of the list that covers the point is a
    draggable one; false when no entry covers it. *)
Definition last_covering_draggable
    (regions : list DraggableRegion) (px py : Z) : bool :=
  match last (filter (fun region => covers region px py) regions) with
  | Some region => draggable region
  | None => false
  end.

(** Whether [SetMenu] hands the menu to the global menu bar: the X11 build,
    with a global menu bar at hand or called for, and its server started. *)
Definition goes_to_global_menu_bar
    (os : Platform) (env : GlobalMenuEnv) w : bool :=
  is_x11 os &&
  (non_null (global_menu_bar_ w) || ShouldUseGlobalMenuBar env) &&
  IsServerStarted env.

(** The members in step: the window is registered with the focus manager
    for the keys of its accelerator table, in their order. *)
Definition accelerators_in_step w : Prop :=
  FocusManager.registered ThisWindow (focus_manager_ w) =
  window_registration <$> AcceleratorTable_keys (accelerator_table_ w).

(** What holds of the core in every state a window goes through: a
    frameless window has no menu bar; without autohide the menu bar is
    visible as soon as it exists; the Windows build has no global menu
    bar; a window with a frame stores no draggable region; and the
    accelerators are in step. *)
Definition steady (os : Platform) w : Prop :=
  (has_frame_ w = false -> menu_bar_ w = None) /\
  (menu_bar_autohide_ w = false ->
   menu_bar_visible_ w = non_null (menu_bar_ w)) /\
  (os = OS_WIN -> global_menu_bar_ w = None) /\
  (has_frame_ w = true -> draggable_region_ w = None) /\
  accelerators_in_step w.

(** The members no method assigns after construction. *)
Definition fixed_members w : bool * bool * bool :=
  (has_frame_ w, menu_bar_autohide_ w, use_content_size_ w).

End FurtherVocabulary.

(** * Properties *)

(** Unfolds the monad and the helpers that only thread the state. *)
Ltac unfold_monad :=
  cbv [exec eval bind ret nop gets modify call_window call_base
       call_focus_manager Layout child_count AddChildView RemoveChildView].

(** Splits on the tests left in the goal. *)
Ltac case_conditions :=
  repeat match goal with
         | |- context [if ?b then _ else _] => destruct b eqn:?; simpl
         end.

Section Delegation.

Context {host : Host}.

Implicit Types w : NativeWindowViews host.

Lemma call_window_exec c w :
  window_ (exec (call_window c) w) = Widget_call c (window_ w) /\
  only_window_changed w (exec (call_window c) w).
Proof. destruct w; split; reflexivity. Qed.

(** C6: [Maximize()] is [window_->Maximize()] and touches no other member;
    [Unmaximize()] and [Restore()] are the same computation, which is
    [window_->Restore()] and touches no other member. *)
Theorem Maximize_Restore_delegate w :
  (window_ (exec Maximize w) = Widget_call W_Maximize (window_ w) /\
   only_window_changed w (exec Maximize w)) /\
  (forall w0, Unmaximize w0 = Restore w0) /\
  (window_ (exec Restore w) = Widget_call W_Restore (window_ w) /\
   only_window_changed w (exec Restore w)) /\
  (window_ (exec Unmaximize w) = Widget_call W_Restore (window_ w) /\
   only_window_changed w (exec Unmaximize w)).
Proof.
  repeat split; try reflexivity; apply call_window_exec.
Qed.

(** C9: [CanClose()] answers false for every state, and what it leaves
    behind is what [CloseWebContents()] leaves behind. *)
Theorem CanClose_false w :
  eval CanClose w = false /\
  exec CanClose w = exec CloseWebContents w.
Proof.
  unfold CanClose, CloseWebContents. unfold_monad.
  destruct (NativeWindow_CloseWebContents (base_ w) (window_ w)); split; reflexivity.
Qed.

Variable os : Platform.

Lemma GetSize_eq w :
  GetSize os w =
  (gfx.size (if is_win os && Widget_IsMinimized (window_ w)
             then Widget_GetRestoredBounds (window_ w)
             else Widget_GetWindowBoundsInScreen (window_ w)), w).
Proof.
  unfold GetSize, IsMinimized. unfold_monad.
  destruct (is_win os); simpl; [destruct (Widget_IsMinimized _)|]; reflexivity.
Qed.

Lemma GetPosition_eq w :
  GetPosition os w =
  (gfx.origin (if is_win os && Widget_IsMinimized (window_ w)
               then Widget_GetRestoredBounds (window_ w)
               else Widget_GetWindowBoundsInScreen (window_ w)), w).
Proof.
  unfold GetPosition, IsMinimized. unfold_monad.
  destruct (is_win os); simpl; [destruct (Widget_IsMinimized _)|]; reflexivity.
Qed.

(** C5, amended: unless the build is the Windows one and the window is
    minimized, [GetSize()] is the size and [GetPosition()] the origin of
    [window_->GetWindowBoundsInScreen()]; on Windows with the window
    minimized they are the size and the origin of
    [window_->GetRestoredBounds()].  Neither changes the state. *)
Theorem GetSize_GetPosition_delegate w :
  (os = USE_X11 \/ Widget_IsMinimized (window_ w) = false ->
   eval (GetSize os) w = gfx.size (Widget_GetWindowBoundsInScreen (window_ w)) /\
   eval (GetPosition os) w = gfx.origin (Widget_GetWindowBoundsInScreen (window_ w))) /\
  (os = OS_WIN /\ Widget_IsMinimized (window_ w) = true ->
   eval (GetSize os) w = gfx.size (Widget_GetRestoredBounds (window_ w)) /\
   eval (GetPosition os) w = gfx.origin (Widget_GetRestoredBounds (window_ w))) /\
  exec (GetSize os) w = w /\
  exec (GetPosition os) w = w.
Proof.
  unfold eval, exec. rewrite GetSize_eq, GetPosition_eq. simpl.
  repeat split.
  - destruct H as [-> | ->]; [reflexivity | by rewrite andb_false_r].
  - destruct H as [-> | ->]; [reflexivity | by rewrite andb_false_r].
  - by destruct H as [-> ->].
  - by destruct H as [-> ->].
Qed.



(** C3: [ShouldDescendIntoChildForEventHandling] answers false for a point
    of the stored draggable region; failing that, in a frameless resizable
    window it answers true exactly when the border hit test of the frame
    view gives [HTNOWHERE]; in every other case it answers true. *)
Theorem ShouldDescendIntoChildForEventHandling_cases location w :
  let answer := eval (ShouldDescendIntoChildForEventHandling location) w in
  (in_draggable_region w location -> answer = false) /\
  (~ in_draggable_region w location ->
   has_frame_ w = false -> resizable_ w = true ->
   (answer = true <->
    FramelessView_ResizingBorderHitTest (window_ w) location = HTNOWHERE)) /\
  (~ in_draggable_region w location ->
   ~ (has_frame_ w = false /\ resizable_ w = true) ->
   answer = true).
Proof.
  unfold ShouldDescendIntoChildForEventHandling, CanResize, in_draggable_region.
  unfold_monad. simpl.
  destruct (draggable_region_ w) as [region|] eqn:Hregion;
    [destruct (SkRegion.contains region _ _) eqn:Hin|].
  - split; [done|].
    split; intros Hnot; exfalso; apply Hnot; eauto.
  - split; [intros (r & Hr & Hc); congruence|].
    split.
    + intros _ -> ->. simpl. apply Z.eqb_eq.
    + intros _ Hnot.
      destruct (has_frame_ w), (resizable_ w); simpl; try done.
      exfalso. by apply Hnot.
  - split; [intros (r & Hr & _); congruence|].
    split.
    + intros _ -> ->. simpl. apply Z.eqb_eq.
    + intros _ Hnot.
      destruct (has_frame_ w), (resizable_ w); simpl; try done.
      exfalso. by apply Hnot.
Qed.

End Delegation.

Section DraggableRegions.

Context {host : Host}.

Implicit Types w : NativeWindowViews host.

Lemma UpdateDraggableRegions_loop_fold regions acc :
  UpdateDraggableRegions_loop regions acc =
  fold_left
    (fun acc region =>
       if draggable region
       then SkRegion.union acc (SkRegion.of_rect (bounds region))
       else SkRegion.difference acc (SkRegion.of_rect (bounds region)))
    regions acc.
Proof.
  revert acc. induction regions as [|region rest IH]; intros acc; [reflexivity|].
  simpl. rewrite IH. by destruct (draggable region).
Qed.

(** The last entry that covers a point decides whether it is draggable. *)
Lemma region_of_list_snoc regions region px py :
  SkRegion.contains (region_of_list (regions ++ [region])) px py =
  if SkRegion.contains (SkRegion.of_rect (bounds region)) px py
  then draggable region
  else SkRegion.contains (region_of_list regions) px py.
Proof.
  unfold region_of_list. rewrite fold_left_app. simpl.
  unfold SkRegion.contains, SkRegion.union, SkRegion.difference.
  destruct (draggable region), (SkRegion.of_rect (bounds region) px py);
    simpl; auto using orb_true_r, orb_false_r, andb_true_r, andb_false_r.
Qed.

(** C2: in a frameless window [UpdateDraggableRegions] stores the region
    built from the empty one by going through the list in order, with a
    union for each draggable rectangle and a difference for each other
    one, and changes nothing else; in a window with a frame it changes
    nothing at all. *)
Theorem UpdateDraggableRegions_spec regions w :
  (has_frame_ w = false ->
   draggable_region_ (exec (UpdateDraggableRegions regions) w) =
     Some (region_of_list regions) /\
   only_draggable_region_changed w (exec (UpdateDraggableRegions regions) w)) /\
  (has_frame_ w = true ->
   exec (UpdateDraggableRegions regions) w = w).
Proof.
  unfold UpdateDraggableRegions, only_draggable_region_changed. unfold_monad.
  split; intros ->; simpl; [|reflexivity].
  rewrite UpdateDraggableRegions_loop_fold. by destruct w.
Qed.

End DraggableRegions.

Section Taskbar.

Context {host : Host}.

Implicit Types w : NativeWindowViews host.

(** C7: in the Windows build, when both COM calls succeed
    [SetSkipTaskbar(skip)] removes the tab of the window's handle from the
    taskbar if [skip] is true and adds it if [skip] is false, and changes
    nothing else; when [CreateInstance] or [HrInit] fails, nothing
    changes. *)
Theorem SetSkipTaskbar_win com skip w :
  let hwnd := Widget_GetAcceleratedWidget (window_ w) in
  let w' := exec (SetSkipTaskbar OS_WIN com skip) w in
  (FAILED (CreateInstance_result com) = false ->
   FAILED (HrInit_result com) = false ->
   taskbar_ w' = (if skip then taskbar_ w ∖ {[hwnd]} else {[hwnd]} ∪ taskbar_ w) /\
   (if skip then hwnd ∉ taskbar_ w' else hwnd ∈ taskbar_ w') /\
   only_taskbar_changed w w') /\
  (FAILED (CreateInstance_result com) = true \/
   FAILED (HrInit_result com) = true ->
   w' = w).
Proof.
  unfold SetSkipTaskbar, GetAcceleratedWidget, only_taskbar_changed. unfold_monad.
  split.
  - intros -> ->. simpl.
    destruct skip; simpl; (split; [reflexivity|]); (split; [|by destruct w]).
    + rewrite elem_of_difference, elem_of_singleton. tauto.
    + apply elem_of_union_l. by apply elem_of_singleton_2.
  - intros [-> | ->]; simpl; [reflexivity|].
    by rewrite orb_true_r.
Qed.

End Taskbar.

Section Accelerators.

Context {host : Host}.

Implicit Types w : NativeWindowViews host.

Lemma AcceleratorTable_keys_spec {V} (table : gmap Accelerator V) a :
  a ∈ AcceleratorTable_keys table <-> is_Some (table !! a).
Proof.
  unfold AcceleratorTable_keys. rewrite merge_sort_Permutation.
  rewrite list_elem_of_fmap. split.
  - intros ([k v] & -> & Hin). apply elem_of_map_to_list in Hin. by exists v.
  - intros [v Hv]. exists (a, v). split; [done|]. by apply elem_of_map_to_list.
Qed.

Lemma RegisterAccelerators_loop_exec keys w :
  exec (RegisterAccelerators_loop keys) w =
  set_focus_manager_ (focus_manager_ w ++ (window_registration <$> keys)) w.
Proof.
  revert w. induction keys as [|first rest IH]; intros w.
  - simpl. unfold_monad. simpl. rewrite app_nil_r. by destruct w.
  - simpl. unfold exec, bind, call_focus_manager, modify in *. simpl.
    rewrite IH. destruct w; simpl.
    unfold set_focus_manager_, FocusManager.RegisterAccelerator; simpl.
    by rewrite <- app_assoc.
Qed.

Lemma RegisterAccelerators_exec menu_model w :
  exec (RegisterAccelerators menu_model) w =
  let table := GenerateAcceleratorTable ∅ menu_model in
  set_focus_manager_
    (FocusManager.UnregisterAccelerators ThisWindow (focus_manager_ w) ++
     (window_registration <$> AcceleratorTable_keys table))
    (set_accelerator_table_ table w).
Proof.
  unfold RegisterAccelerators.
  unfold exec at 1. unfold bind, modify, call_focus_manager, gets. simpl.
  pose proof (RegisterAccelerators_loop_exec
    (AcceleratorTable_keys (GenerateAcceleratorTable ∅ menu_model))
    (set_accelerator_table_ (GenerateAcceleratorTable ∅ menu_model)
       (set_focus_manager_
          (FocusManager.UnregisterAccelerators ThisWindow (focus_manager_ w))
          (set_accelerator_table_ ∅ w)))) as Hloop.
  unfold exec in Hloop. destruct w; simpl in *. by rewrite Hloop.
Qed.

Lemma registered_unregistered target fm :
  FocusManager.registered target (FocusManager.UnregisterAccelerators target fm) = [].
Proof.
  unfold FocusManager.registered, FocusManager.UnregisterAccelerators.
  rewrite list_filter_filter.
  induction fm as [|r fm IH]; [reflexivity|].
  rewrite filter_cons_False; [done|]. by intros [? ?].
Qed.

Lemma registered_unregistered_other target other fm :
  other ≠ target ->
  FocusManager.registered other (FocusManager.UnregisterAccelerators target fm) =
  FocusManager.registered other fm.
Proof.
  intros Hother.
  unfold FocusManager.registered, FocusManager.UnregisterAccelerators.
  apply list_filter_filter_l. intros r ->. done.
Qed.

Lemma registered_window_registrations target keys :
  FocusManager.registered target (window_registration <$> keys) =
  if decide (target = ThisWindow) then window_registration <$> keys else [].
Proof.
  unfold FocusManager.registered.
  induction keys as [|k keys IH]; [by destruct (decide _)|].
  rewrite fmap_cons, filter_cons, IH. simpl.
  destruct (decide (ThisWindow = target)) as [<-|Hne].
  - by rewrite decide_True.
  - destruct (decide (target = ThisWindow)); [congruence|done].
Qed.

(** C4: [RegisterAccelerators] leaves as accelerator table the one generated
    from the menu model into an emptied table, and as registrations of the
    window with the focus manager exactly one per entry of that table, in
    the order of the table and with normal priority; what was in the table
    or registered for the window before does not matter.  Registrations of
    other targets stay, and no other member changes. *)
Theorem RegisterAccelerators_spec menu_model w :
  let w' := exec (RegisterAccelerators menu_model) w in
  let table := GenerateAcceleratorTable ∅ menu_model in
  accelerator_table_ w' = table /\
  FocusManager.registered ThisWindow (focus_manager_ w') =
    window_registration <$> AcceleratorTable_keys table /\
  (forall a p,
     mkRegistration a p ThisWindow ∈ focus_manager_ w' <->
     p = kNormalPriority /\ is_Some (table !! a)) /\
  (forall other,
     other ≠ ThisWindow ->
     FocusManager.registered other (focus_manager_ w') =
     FocusManager.registered other (focus_manager_ w)) /\
  w' = set_focus_manager_ (focus_manager_ w') (set_accelerator_table_ table w).
Proof.
  intros w' table. subst w'. rewrite RegisterAccelerators_exec. fold table.
  cbv zeta.
  assert (Hfm : forall fm (v : NativeWindowViews host),
            focus_manager_ (set_focus_manager_ fm v) = fm) by by intros ? [].
  rewrite !Hfm.
  split; [by destruct w|].
  split.
  { unfold FocusManager.registered at 1. rewrite filter_app.
    fold (FocusManager.registered ThisWindow
            (FocusManager.UnregisterAccelerators ThisWindow (focus_manager_ w))).
    fold (FocusManager.registered ThisWindow
            (window_registration <$> AcceleratorTable_keys table)).
    rewrite registered_unregistered, registered_window_registrations.
    by rewrite decide_True. }
  split.
  { intros a p. rewrite elem_of_app, list_elem_of_fmap.
    unfold FocusManager.UnregisterAccelerators. rewrite list_elem_of_filter.
    simpl. split.
    - intros [[Hne _] | (k & [= -> ->] & Hk)]; [done|].
      split; [done|]. by apply AcceleratorTable_keys_spec.
    - intros [-> Hsome]. right. exists a. split; [done|].
      by apply AcceleratorTable_keys_spec. }
  split; [|reflexivity].
  intros other Hother.
  unfold FocusManager.registered at 1. rewrite filter_app.
  fold (FocusManager.registered other
          (FocusManager.UnregisterAccelerators ThisWindow (focus_manager_ w))).
  fold (FocusManager.registered other
          (window_registration <$> AcceleratorTable_keys table)).
  rewrite registered_unregistered_other, registered_window_registrations by done.
  rewrite decide_False by done. by rewrite app_nil_r.
Qed.

End Accelerators.

Section MenuBarAutohide.

Context {host : Host}.

Variable os : Platform.

Implicit Types w : NativeWindowViews host.

Lemma Type_eqb_eq a b : WebInputEvent.Type_eqb a b = true <-> a = b.
Proof. destruct a, b; simpl; split; congruence. Qed.

Lemma single_alt_pressed_test event :
  WebInputEvent.Type_eqb (type event) WebInputEvent.RawKeyDown &&
  IsAltKey os event && IsAltModifier event = true <->
  single_alt_pressed os event.
Proof.
  unfold single_alt_pressed, IsAltModifier.
  rewrite !andb_true_iff, !orb_true_iff, !Z.eqb_eq, Type_eqb_eq. tauto.
Qed.

Lemma single_alt_released_test event :
  WebInputEvent.Type_eqb (type event) WebInputEvent.KeyUp &&
  IsAltKey os event && (modifiers event =? 0) = true <->
  single_alt_released os event.
Proof.
  unfold single_alt_released.
  rewrite !andb_true_iff, !Z.eqb_eq, Type_eqb_eq. tauto.
Qed.

(** What [SetMenuBarVisibility] does to the visibility flag. *)
Lemma SetMenuBarVisibility_visible visible w :
  menu_bar_visible_ (exec (SetMenuBarVisibility visible) w) =
  if non_null (menu_bar_ w) then visible else menu_bar_visible_ w.
Proof.
  destruct w as [? ? ? ? ? ? [menu_bar|] ? ? ? ? ? ? ? ? ? ? ? ?].
  all: unfold SetMenuBarVisibility, DCHECK_EQ; unfold_monad; simpl.
  all: case_conditions; reflexivity.
Qed.

(** The two flags after [HandleKeyboardEvent], by the tests of the source. *)
Lemma HandleKeyboardEvent_flags event w :
  let w' := exec (HandleKeyboardEvent os event) w in
  let pressed :=
    WebInputEvent.Type_eqb (type event) WebInputEvent.RawKeyDown &&
    IsAltKey os event && IsAltModifier event in
  let released :=
    WebInputEvent.Type_eqb (type event) WebInputEvent.KeyUp &&
    IsAltKey os event && (modifiers event =? 0) in
  menu_bar_alt_pressed_ w' =
    (if menu_bar_autohide_ w then pressed else menu_bar_alt_pressed_ w) /\
  menu_bar_visible_ w' =
    (if menu_bar_autohide_ w && negb pressed && released &&
        menu_bar_alt_pressed_ w && non_null (menu_bar_ w)
     then negb (menu_bar_visible_ w) else menu_bar_visible_ w).
Proof.
  destruct w as [? ? ? ? ? ? [menu_bar|] autohide visible alt ? ? ? ? ? ? ? ? ?].
  all: unfold HandleKeyboardEvent, SetMenuBarVisibility, DCHECK_EQ.
  all: unfold_monad; simpl.
  all: destruct (WebInputEvent.Type_eqb (type event) WebInputEvent.RawKeyDown &&
                 IsAltKey os event && IsAltModifier event);
       destruct (WebInputEvent.Type_eqb (type event) WebInputEvent.KeyUp &&
                 IsAltKey os event && (modifiers event =? 0)).
  all: destruct autohide, visible, alt; simpl.
  all: case_conditions; split; reflexivity.
Qed.

(** C1, amended: with autohide on, a single Alt pressed sets
    [menu_bar_alt_pressed_]; a single Alt released while the flag is set
    clears the flag and, if a menu bar exists, toggles
    [menu_bar_visible_] (without a menu bar the visibility stays); every
    other key event clears the flag and leaves the visibility.  With
    autohide off neither the flag nor the visibility changes. *)
Theorem HandleKeyboardEvent_autohide event w :
  let w' := exec (HandleKeyboardEvent os event) w in
  (menu_bar_autohide_ w = true ->
   (single_alt_pressed os event ->
    menu_bar_alt_pressed_ w' = true /\
    menu_bar_visible_ w' = menu_bar_visible_ w) /\
   (single_alt_released os event -> menu_bar_alt_pressed_ w = true ->
    menu_bar_alt_pressed_ w' = false /\
    menu_bar_visible_ w' =
      (if non_null (menu_bar_ w)
       then negb (menu_bar_visible_ w) else menu_bar_visible_ w)) /\
   (~ single_alt_pressed os event ->
    ~ (single_alt_released os event /\ menu_bar_alt_pressed_ w = true) ->
    menu_bar_alt_pressed_ w' = false /\
    menu_bar_visible_ w' = menu_bar_visible_ w)) /\
  (menu_bar_autohide_ w = false ->
   menu_bar_alt_pressed_ w' = menu_bar_alt_pressed_ w /\
   menu_bar_visible_ w' = menu_bar_visible_ w).
Proof.
  intros w'. destruct (HandleKeyboardEvent_flags event w) as [Halt Hvisible].
  fold w' in Halt, Hvisible. rewrite Halt, Hvisible. clear Halt Hvisible.
  pose proof (single_alt_pressed_test event) as Hpressed.
  pose proof (single_alt_released_test event) as Hreleased.
  destruct (WebInputEvent.Type_eqb (type event) WebInputEvent.RawKeyDown &&
            IsAltKey os event && IsAltModifier event) eqn:Epressed;
  destruct (WebInputEvent.Type_eqb (type event) WebInputEvent.KeyUp &&
            IsAltKey os event && (modifiers event =? 0)) eqn:Ereleased.
  - (* both tests true: impossible, the types differ *)
    exfalso.
    destruct (proj1 Hpressed eq_refl) as [Hdown _].
    destruct (proj1 Hreleased eq_refl) as [Hup _]. congruence.
  - split; intros ->; simpl; [|by split].
    split; [by split|]. split.
    + intros Hr. apply Hreleased in Hr. discriminate.
    + intros Hp. exfalso. apply Hp. by apply Hpressed.
  - split; intros ->; simpl; [|by split].
    split; [|split].
    + intros Hp. apply Hpressed in Hp. discriminate.
    + intros _ ->. simpl. by split.
    + intros _ Hr. destruct (menu_bar_alt_pressed_ w); simpl; [|by split].
      exfalso. apply Hr. split; [by apply Hreleased | reflexivity].
  - split; intros ->; simpl; [|by split].
    split; [|split].
    + intros Hp. apply Hpressed in Hp. discriminate.
    + intros Hr. apply Hreleased in Hr. discriminate.
    + by split.
Qed.

End MenuBarAutohide.

Section MenuBarInvariant.

Context {host : Host}.

Variable os : Platform.

Implicit Types w : NativeWindowViews host.

Lemma menu_bar_invariant_part w w' :
  menu_bar_part w' = menu_bar_part w ->
  menu_bar_invariant w -> menu_bar_invariant w'.
Proof.
  unfold menu_bar_part, menu_bar_invariant.
  intros [= -> -> -> ->]. tauto.
Qed.

Lemma exec_bind {A B} (m : M host A) (f : A -> M host B) w :
  exec (bind m f) w = exec (f (eval m w)) (exec m w).
Proof. unfold exec, eval, bind. by destruct (m w). Qed.

Lemma exec_gets {A} (f : NativeWindowViews host -> A) w : exec (gets f) w = w.
Proof. reflexivity. Qed.

Lemma eval_gets {A} (f : NativeWindowViews host -> A) w : eval (gets f) w = f w.
Proof. reflexivity. Qed.

Lemma exec_nop w : exec nop w = w.
Proof. reflexivity. Qed.

Lemma exec_modify f w : exec (modify f) w = f w.
Proof. reflexivity. Qed.

Lemma Layout_menu_bar_part w :
  menu_bar_part (exec Layout w) = menu_bar_part w.
Proof. by destruct w. Qed.

(** Runs the binds and the reads at the head of a computation. *)
Ltac step_monad :=
  repeat first [rewrite exec_bind | rewrite exec_gets | rewrite eval_gets
               | rewrite exec_nop | rewrite exec_modify].

(** Unfolds a method down to the members and decides the tests. *)
Ltac run_method :=
  cbv [Close CloseImmediately Move Focus Show Hide SetAlwaysOnTop FlashFrame
       Maximize Unmaximize Minimize Restore
       SetFullscreen SetSize GetSize IsMinimized SetPosition Center
       ContentBoundsToWindowBounds SetContentSize GetContentSize
       SetMinimumSize SetMaximumSize SetResizable SetTitle SetKiosk
       GetAcceleratedWidget SetSkipTaskbar UpdateDraggableRegions is_win is_x11
       DeleteDelegate CloseWebContents CanClose DCHECK_EQ
       SetMenuBarVisibility HandleMouseDown OnWidgetActivationChanged];
  unfold_monad; simpl.

Lemma RegisterAccelerators_menu_bar_part menu_model w :
  menu_bar_part (exec (RegisterAccelerators menu_model) w) = menu_bar_part w.
Proof. rewrite RegisterAccelerators_exec. by destruct w. Qed.

Lemma SetMenuBarVisibility_invariant visible w :
  menu_bar_invariant w ->
  menu_bar_visible_ w = negb visible ->
  menu_bar_invariant (exec (SetMenuBarVisibility visible) w).
Proof.
  destruct w as [? ? ? ? children ? [menu_bar|] ? shown ? ? ? ? ? ? ? ? ? failed].
  all: unfold menu_bar_invariant; simpl; intros (-> & -> & Hbar) ->.
  all: destruct visible; run_method; auto.
  all: by specialize (Hbar eq_refl).
Qed.

Lemma hide_menu_bar_invariant w :
  menu_bar_invariant w ->
  menu_bar_visible_ w = true ->
  menu_bar_invariant (exec Layout (exec (SetMenuBarVisibility false) w)).
Proof.
  intros Hinv Hshown.
  eapply menu_bar_invariant_part; [apply Layout_menu_bar_part|].
  by apply SetMenuBarVisibility_invariant.
Qed.

Lemma HandleMouseDown_invariant w :
  menu_bar_invariant w -> menu_bar_invariant (exec HandleMouseDown w).
Proof.
  intros Hinv. unfold HandleMouseDown. step_monad.
  destruct (menu_bar_autohide_ w), (menu_bar_visible_ w) eqn:Hshown; simpl.
  all: step_monad; try done.
  by apply hide_menu_bar_invariant.
Qed.

Lemma OnWidgetActivationChanged_invariant is_window active w :
  menu_bar_invariant w ->
  menu_bar_invariant (exec (OnWidgetActivationChanged is_window active) w).
Proof.
  intros Hinv. unfold OnWidgetActivationChanged.
  destruct is_window; simpl; [|done]. step_monad.
  set (w1 := exec (if active then call_base B_NotifyWindowFocus
                   else call_base B_NotifyWindowBlur) w).
  set (w2 := exec (if active && _ && _ then _ else _) w1).
  assert (Hpart : menu_bar_part w2 = menu_bar_part w /\
                  menu_bar_autohide_ w2 = menu_bar_autohide_ w).
  { subst w2 w1. destruct w, active; simpl; case_conditions; by split. }
  destruct Hpart as [Hpart Hauto].
  assert (Hinv2 : menu_bar_invariant w2) by by eapply menu_bar_invariant_part.
  destruct (negb active && menu_bar_autohide_ w2 && menu_bar_visible_ w2) eqn:Hhide;
    step_monad; [|done].
  apply hide_menu_bar_invariant; [done|].
  by apply andb_true_iff in Hhide as [_ ?].
Qed.

Lemma HandleKeyboardEvent_invariant event w :
  menu_bar_invariant w ->
  menu_bar_invariant (exec (HandleKeyboardEvent os event) w).
Proof.
  intros Hinv. unfold HandleKeyboardEvent. step_monad.
  set (w1 := exec (call_window (W_HandleKeyboardEvent event)) w).
  assert (Hinv1 : menu_bar_invariant w1).
  { eapply menu_bar_invariant_part; [|done]. by destruct w. }
  clearbody w1. clear Hinv.
  destruct (menu_bar_autohide_ w1); simpl; [|done]. step_monad.
  assert (Hset : forall b,
            menu_bar_part (set_menu_bar_alt_pressed_ b w1) = menu_bar_part w1 /\
            menu_bar_visible_ (set_menu_bar_alt_pressed_ b w1) = menu_bar_visible_ w1)
    by (intros b; by destruct w1).
  case_conditions; step_monad.
  - eapply menu_bar_invariant_part; [apply Hset | done].
  - eapply menu_bar_invariant_part; [apply Layout_menu_bar_part|].
    apply SetMenuBarVisibility_invariant.
    + eapply menu_bar_invariant_part; [apply Hset | done].
    + by rewrite negb_involutive.
  - eapply menu_bar_invariant_part; [apply Hset | done].
Qed.

Lemma SetMenu_global_menu_bar_part env menu_model w :
  menu_bar_part (exec (SetMenu_global env menu_model) w) = menu_bar_part w.
Proof.
  destruct w, env as [[] []]; unfold SetMenu_global; unfold_monad; simpl.
  all: case_conditions; reflexivity.
Qed.

Lemma SetMenu_invariant env menu_model w :
  menu_bar_invariant w ->
  menu_bar_invariant (exec (SetMenu os env menu_model) w).
Proof.
  intros Hinv. unfold SetMenu. rewrite exec_bind.
  set (w1 := exec (RegisterAccelerators menu_model) w).
  assert (Hinv1 : menu_bar_invariant w1).
  { eapply menu_bar_invariant_part; [apply RegisterAccelerators_menu_bar_part|done]. }
  clearbody w1. clear Hinv w. rewrite exec_bind.
  set (returned := eval _ w1).
  set (w2 := exec (if is_x11 os then _ else _) w1).
  assert (Hinv2 : menu_bar_invariant w2).
  { eapply menu_bar_invariant_part; [|done]. subst w2.
    destruct (is_x11 os); [apply SetMenu_global_menu_bar_part|reflexivity]. }
  clearbody w2 returned. clear Hinv1 w1.
  destruct returned; [done|].
  destruct w2 as [? has_frame ? ? children ? [menu_bar|] autohide shown ?
                  use_content_size ? ? ? ? ? ? ? failed].
  all: unfold menu_bar_invariant in *; simpl in *.
  all: destruct Hinv2 as (-> & -> & Hbar).
  all: destruct has_frame, autohide, shown, use_content_size.
  all: try (by specialize (Hbar eq_refl)).
  all: run_method; case_conditions; auto.
Qed.

Lemma call_menu_bar_part m w :
  leaves_menu_bar m = true ->
  menu_bar_part (exec (call os m) w) = menu_bar_part w.
Proof.
  destruct m; simpl; try discriminate; intros _; destruct w.
  all: run_method; try reflexivity.
  all: try (destruct os; simpl); case_conditions; try reflexivity.
  all: by destruct (NativeWindow_CloseWebContents _ _).
Qed.

Lemma call_invariant m w :
  menu_bar_invariant w -> menu_bar_invariant (exec (call os m) w).
Proof.
  intros Hinv. destruct (leaves_menu_bar m) eqn:Hleaves.
  - eapply menu_bar_invariant_part; [by apply call_menu_bar_part | done].
  - destruct m; try discriminate; simpl.
    + by apply SetMenu_invariant.
    + by apply OnWidgetActivationChanged_invariant.
    + by apply HandleMouseDown_invariant.
    + by apply HandleKeyboardEvent_invariant.
Qed.

Lemma run_invariant calls w :
  menu_bar_invariant w -> menu_bar_invariant (run os calls w).
Proof.
  revert w. induction calls as [|m calls IH]; intros w Hinv; [done|].
  simpl. apply IH. by apply call_invariant.
Qed.

Lemma NativeWindowViews_new_invariant base has_frame taskbar options :
  menu_bar_invariant (NativeWindowViews_new os base has_frame taskbar options).
Proof.
  unfold NativeWindowViews_new, constructor_body, initial_members.
  cbv [ContentBoundsToWindowBounds]. unfold_monad. simpl.
  destruct has_frame; simpl; case_conditions; by repeat split.
Qed.

(** C8: in every state reached from the constructor by calls of the
    methods no [DCHECK] has failed, so each execution of
    [SetMenuBarVisibility] found one child before showing the menu bar and
    two before hiding it; and [menu_bar_visible_] is set exactly when the
    menu bar is a child of the contents view, whose child count is two
    then and one otherwise. *)
Theorem SetMenuBarVisibility_assertions_hold
    base has_frame taskbar options (calls : list (Method host)) :
  let w := run os calls (NativeWindowViews_new os base has_frame taskbar options) in
  dcheck_failed_ w = false /\
  (menu_bar_visible_ w = true <-> MenuBarView ∈ children_ w) /\
  View.child_count (children_ w) = (if menu_bar_visible_ w then 2 else 1).
Proof.
  intros w.
  assert (Hinv : menu_bar_invariant w)
    by apply run_invariant, NativeWindowViews_new_invariant.
  destruct Hinv as (Hfailed & Hchildren & _).
  split; [done|]. rewrite Hchildren.
  destruct (menu_bar_visible_ w); split; try reflexivity.
  - split; [intros _ | done]. by rewrite !elem_of_cons; right; left.
  - split; [done | intros Hin]. by apply list_elem_of_singleton in Hin.
Qed.

End MenuBarInvariant.

(** ** On the concrete windows *)

(** C1 as stated fails: autohide is on, the flag is set and a single Alt is
    released, yet the visibility is not toggled, because there is no menu
    bar. *)
Lemma HandleKeyboardEvent_toggle_counterexample :
  menu_bar_autohide_ autohide_window = true /\
  menu_bar_alt_pressed_ autohide_window = true /\
  single_alt_released OS_WIN alt_up /\
  menu_bar_visible_
    (exec (HandleKeyboardEvent OS_WIN alt_up) autohide_window)
  <> negb (menu_bar_visible_ autohide_window).
Proof.
  split; [reflexivity|]. split; [reflexivity|].
  split; [by repeat split|]. vm_compute. discriminate.
Qed.

(** The key events on windows with autohide: Alt pressed, Alt released
    with and without a menu bar, another key; and Alt released with
    autohide off. *)
Lemma HandleKeyboardEvent_autohide_witness :
  menu_bar_alt_pressed_
    (exec (HandleKeyboardEvent OS_WIN alt_down)
          (new_window OS_WIN true ∅ autohide_options)) = true /\
  menu_bar_visible_
    (exec (HandleKeyboardEvent OS_WIN alt_up) autohide_menu_window) = true /\
  menu_bar_visible_
    (exec (HandleKeyboardEvent OS_WIN alt_up) autohide_window) = false /\
  menu_bar_alt_pressed_
    (exec (HandleKeyboardEvent OS_WIN (mkKeyEvent WebInputEvent.RawKeyDown 65 0))
          autohide_window) = false /\
  menu_bar_alt_pressed_
    (exec (HandleKeyboardEvent OS_WIN alt_up) framed_window) = false.
Proof.
  split; [|split; [|split; [|split]]].
  - destruct (HandleKeyboardEvent_autohide OS_WIN alt_down
                (new_window OS_WIN true ∅ autohide_options)) as [Hon _].
    destruct (Hon eq_refl) as (Hpressed & _ & _).
    apply Hpressed. split; [reflexivity|]. split; [reflexivity|]. by left.
  - destruct (HandleKeyboardEvent_autohide OS_WIN alt_up autohide_menu_window)
      as [Hon _].
    destruct (Hon eq_refl) as (_ & Hreleased & _).
    apply Hreleased; [by repeat split | reflexivity].
  - destruct (HandleKeyboardEvent_autohide OS_WIN alt_up autohide_window)
      as [Hon _].
    destruct (Hon eq_refl) as (_ & Hreleased & _).
    apply Hreleased; [by repeat split | reflexivity].
  - destruct (HandleKeyboardEvent_autohide OS_WIN
                (mkKeyEvent WebInputEvent.RawKeyDown 65 0) autohide_window)
      as [Hon _].
    destruct (Hon eq_refl) as (_ & _ & Hother).
    apply Hother.
    + intros (_ & Halt & _). vm_compute in Halt. discriminate.
    + intros [(Htype & _) _]. vm_compute in Htype. discriminate.
  - destruct (HandleKeyboardEvent_autohide OS_WIN alt_up framed_window)
      as [_ Hoff].
    apply Hoff. reflexivity.
Defined.

(** C5 as stated fails: on Windows the minimized window reports the size
    and the origin of its restored bounds, not of its bounds in screen. *)
Lemma GetSize_minimized_counterexample :
  eval (GetSize OS_WIN) minimized_window <>
    gfx.size (Widget_GetWindowBoundsInScreen (window_ minimized_window)) /\
  eval (GetPosition OS_WIN) minimized_window <>
    gfx.origin (Widget_GetWindowBoundsInScreen (window_ minimized_window)).
Proof. split; vm_compute; discriminate. Qed.

(** The getters on a window that is shown, on a minimized one on Windows,
    and on the latter as the X11 build would read it. *)
Lemma GetSize_GetPosition_delegate_witness :
  (eval (GetSize OS_WIN) framed_window = gfx.mkSize 800 600 /\
   eval (GetPosition OS_WIN) framed_window = gfx.mkPoint 0 0) /\
  (eval (GetSize OS_WIN) minimized_window = gfx.mkSize 800 600 /\
   eval (GetPosition OS_WIN) minimized_window = gfx.mkPoint 0 0) /\
  (eval (GetSize USE_X11) minimized_window = gfx.mkSize 160 28 /\
   eval (GetPosition USE_X11) minimized_window = gfx.mkPoint (-32000) (-32000)).
Proof.
  split; [|split].
  - destruct (GetSize_GetPosition_delegate OS_WIN framed_window) as (Hshown & _).
    apply Hshown. right. reflexivity.
  - destruct (GetSize_GetPosition_delegate OS_WIN minimized_window)
      as (_ & Hminimized & _).
    apply Hminimized. split; reflexivity.
  - destruct (GetSize_GetPosition_delegate USE_X11 minimized_window) as (Hshown & _).
    apply Hshown. left. reflexivity.
Defined.


(** A point of the title strip, a point of the page, and a point of a
    framed window. *)
Lemma ShouldDescendIntoChildForEventHandling_witness :
  eval (ShouldDescendIntoChildForEventHandling (gfx.mkPoint 100 10))
       frameless_window = false /\
  (eval (ShouldDescendIntoChildForEventHandling (gfx.mkPoint 100 300))
        frameless_window = true <->
   FramelessView_ResizingBorderHitTest (window_ frameless_window)
     (gfx.mkPoint 100 300) = HTNOWHERE) /\
  eval (ShouldDescendIntoChildForEventHandling (gfx.mkPoint 2 2))
       framed_window = true.
Proof.
  split; [|split].
  - destruct (ShouldDescendIntoChildForEventHandling_cases
                (gfx.mkPoint 100 10) frameless_window) as (Hin & _).
    apply Hin. eexists. split; reflexivity.
  - destruct (ShouldDescendIntoChildForEventHandling_cases
                (gfx.mkPoint 100 300) frameless_window) as (_ & Hborder & _).
    apply Hborder; [|reflexivity|reflexivity].
    intros (region & Hregion & Hcontains).
    injection Hregion as <-. vm_compute in Hcontains. discriminate.
  - destruct (ShouldDescendIntoChildForEventHandling_cases
                (gfx.mkPoint 2 2) framed_window) as (_ & _ & Hrest).
    apply Hrest.
    + intros (region & Hregion & _). vm_compute in Hregion. discriminate.
    + intros [Hframe _]. vm_compute in Hframe. discriminate.
Defined.

(** The title strip given to a frameless and to a framed window. *)
Lemma UpdateDraggableRegions_spec_witness :
  draggable_region_ frameless_window = Some (region_of_list title_strip) /\
  exec (UpdateDraggableRegions title_strip) framed_window = framed_window.
Proof.
  split.
  - destruct (UpdateDraggableRegions_spec title_strip
                (new_window USE_X11 false ∅ no_options))
      as [Hframeless _].
    apply Hframeless. reflexivity.
  - destruct (UpdateDraggableRegions_spec title_strip framed_window) as [_ Hframed].
    apply Hframed. reflexivity.
Defined.

(** The strip is draggable, the button cut out of it is not. *)
Example title_strip_contains :
  SkRegion.contains (region_of_list title_strip) 100 10 = true /\
  SkRegion.contains (region_of_list title_strip) 770 10 = false /\
  SkRegion.contains (region_of_list title_strip) 100 30 = false.
Proof. repeat split. Qed.

(** Skipping and showing the taskbar tab, and a failing [HrInit]
    ([E_FAIL]). *)
Lemma SetSkipTaskbar_win_witness :
  taskbar_ (exec (SetSkipTaskbar OS_WIN (mkComEnv 0 0) true) framed_window) =
    taskbar_ framed_window ∖ {[42]} /\
  42 ∈ taskbar_ (exec (SetSkipTaskbar OS_WIN (mkComEnv 0 0) false) framed_window) /\
  exec (SetSkipTaskbar OS_WIN (mkComEnv 0 (-2147467259)) true) framed_window =
    framed_window.
Proof.
  split; [|split].
  - destruct (SetSkipTaskbar_win (mkComEnv 0 0) true framed_window) as [Hok _].
    apply Hok; reflexivity.
  - destruct (SetSkipTaskbar_win (mkComEnv 0 0) false framed_window) as [Hok _].
    apply Hok; reflexivity.
  - destruct (SetSkipTaskbar_win (mkComEnv 0 (-2147467259)) true framed_window)
      as [_ Hfailed].
    apply Hfailed. right. reflexivity.
Defined.

(** A new menu with two accelerators replaces what the old menu
    registered. *)
Lemma RegisterAccelerators_spec_witness :
  FocusManager.registered ThisWindow
    (focus_manager_
       (exec (RegisterAccelerators [(83, 0, 2); (65, 0, 2)]) window_with_old_menu)) =
    [window_registration (65, 0, 2); window_registration (83, 0, 2)] /\
  FocusManager.registered (OtherTarget 1)
    (focus_manager_
       (exec (RegisterAccelerators [(83, 0, 2); (65, 0, 2)]) window_with_old_menu)) =
    [mkRegistration (81, 0, 2) kNormalPriority (OtherTarget 1)].
Proof.
  destruct (RegisterAccelerators_spec (host := simple_host)
              [(83, 0, 2); (65, 0, 2)] window_with_old_menu)
    as (_ & Hwindow & _ & Hother & _).
  split.
  - rewrite Hwindow. vm_compute. reflexivity.
  - rewrite Hother; [reflexivity | discriminate].
Defined.

(** The assertions along a run that shows, hides and shows the menu bar. *)
Example menu_bar_run :
  let w := run OS_WIN
             [m_SetMenu (mkGlobalMenuEnv false false) [(65, 0, 2)];
              m_HandleKeyboardEvent alt_down;
              m_HandleKeyboardEvent alt_up;
              m_HandleMouseDown;
              m_HandleKeyboardEvent alt_down;
              m_HandleKeyboardEvent alt_up]
             (new_window OS_WIN true ∅ autohide_options) in
  children_ w = [WebView; MenuBarView] /\
  menu_bar_visible_ w = true /\
  dcheck_failed_ w = false.
Proof. vm_compute. repeat split. Qed.

(** * Further properties *)

(** Unfolds the methods down to the members. *)
Ltac run_methods :=
  cbv [Close CloseImmediately Move Focus Show Hide SetAlwaysOnTop FlashFrame
       Maximize Unmaximize Minimize Restore
       SetFullscreen SetSize GetSize IsMinimized SetPosition Center
       ContentBoundsToWindowBounds SetContentSize GetContentSize
       SetMinimumSize SetMaximumSize SetResizable SetTitle SetKiosk
       GetAcceleratedWidget SetSkipTaskbar UpdateDraggableRegions
       DeleteDelegate CloseWebContents CanClose CanResize DCHECK_EQ
       SetMenuBarVisibility HandleMouseDown OnWidgetActivationChanged
       HandleKeyboardEvent SetMenu_global
       IsResizable CanMaximize GetTitle GetMinimumSize GetMaximumSize
       CreateNonClientFrameView];
  unfold_monad; simpl.

(** Decides the goals left after a method is run on explicit members. *)
Ltac close_cases :=
  repeat match goal with
         | H : _ /\ _ |- _ => destruct H
         | |- _ /\ _ => split
         | |- _ -> _ => intro
         end;
  simpl in *; try congruence; try tauto; try discriminate; auto.

Section Stored.

Context {host : Host}.

Variable os : Platform.

Implicit Types w : NativeWindowViews host.

(** X1: [SetTitle], [SetMinimumSize], [SetMaximumSize] and [SetResizable] store
    their argument: the matching readers return it right after, in both
    builds and with or without a frame. *)
Theorem stored_members_round_trip w title s resizable :
  eval GetTitle (exec (SetTitle title) w) = title /\
  eval GetMinimumSize (exec (SetMinimumSize os s) w) = s /\
  eval GetMaximumSize (exec (SetMaximumSize os s) w) = s /\
  eval IsResizable (exec (SetResizable os resizable) w) = resizable /\
  eval CanResize (exec (SetResizable os resizable) w) = resizable /\
  eval CanMaximize (exec (SetResizable os resizable) w) = resizable.
Proof.
  destruct w as [? has_frame ? ? ? ? ? ? ? ? ? ? ? ? ? ? ? ? ?].
  destruct os, has_frame; run_methods; repeat split.
Qed.

End Stored.

Section WindowStyle.

Context {host : Host}.

Implicit Types w : NativeWindowViews host.

Lemma style_bits (n : Z) :
  0 <= n ->
  Z.testbit WS_MAXIMIZEBOX n = (16 =? n) /\
  Z.testbit WS_MINIMIZEBOX n = (17 =? n) /\
  Z.testbit WS_THICKFRAME n = (18 =? n) /\
  Z.testbit (DWORD_not (Z.lor WS_MAXIMIZEBOX WS_THICKFRAME)) n =
    (n <? 32) && negb (16 =? n) && negb (18 =? n).
Proof.
  intros Hn. unfold DWORD_not.
  change WS_MAXIMIZEBOX with (2 ^ 16). change WS_MINIMIZEBOX with (2 ^ 17).
  change WS_THICKFRAME with (2 ^ 18). change 0xFFFFFFFF with (Z.ones 32).
  rewrite Z.lxor_spec, Z.lor_spec, !Z.pow2_bits_eqb by lia.
  rewrite Z.testbit_ones_nonneg by lia.
  repeat split.
  destruct (16 =? n) eqn:E16, (18 =? n) eqn:E18, (n <? 32) eqn:E32; try reflexivity.
  all: apply Z.ltb_ge in E32; try apply Z.eqb_eq in E16; try apply Z.eqb_eq in E18; lia.
Qed.

(** The style [SetResizable] computes from the current one. *)
Lemma SetResizable_style_bits (resizable : bool) (style n : Z) :
  0 <= n < 32 ->
  Z.testbit
    (if resizable
     then Z.lor style (Z.lor (Z.lor WS_MAXIMIZEBOX WS_MINIMIZEBOX) WS_THICKFRAME)
     else Z.lor (Z.land style (DWORD_not (Z.lor WS_MAXIMIZEBOX WS_THICKFRAME)))
                WS_MINIMIZEBOX) n =
  if (16 =? n) || (18 =? n) then resizable
  else if 17 =? n then true
  else Z.testbit style n.
Proof.
  intros Hn. destruct (style_bits n) as (Hmax & Hmin & Hthick & Hnot); [lia|].
  assert (H32 : (n <? 32) = true) by (apply Z.ltb_lt; lia).
  destruct resizable.
  - rewrite !Z.lor_spec, Hmax, Hmin, Hthick.
    destruct (16 =? n), (17 =? n), (18 =? n), (Z.testbit style n); reflexivity.
  - rewrite Z.lor_spec, Z.land_spec, Hmin, Hnot, H32.
    destruct (16 =? n) eqn:E16, (17 =? n) eqn:E17, (18 =? n) eqn:E18,
             (Z.testbit style n); try reflexivity.
    all: apply Z.eqb_eq in E17; try apply Z.eqb_eq in E16;
         try apply Z.eqb_eq in E18; lia.
Qed.

(** X2: In the Windows build [SetResizable] on a window with a frame writes
    back the window style with the maximize box (bit 16) and the resize
    border (bit 18) set as [resizable] says, the minimize box (bit 17) set,
    and every other bit of the 32 as it was.  Without a frame, and in the
    X11 build, the widget is not touched. *)
Theorem SetResizable_window_style resizable w :
  (has_frame_ w = true ->
   exists style,
     window_ (exec (SetResizable OS_WIN resizable) w) =
       Widget_call (W_SetWindowLong style) (window_ w) /\
     Z.testbit style 16 = resizable /\
     Z.testbit style 17 = true /\
     Z.testbit style 18 = resizable /\
     forall n, 0 <= n < 32 -> n <> 16 -> n <> 17 -> n <> 18 ->
       Z.testbit style n = Z.testbit (Widget_GetWindowLong (window_ w)) n) /\
  (has_frame_ w = false ->
   window_ (exec (SetResizable OS_WIN resizable) w) = window_ w) /\
  window_ (exec (SetResizable USE_X11 resizable) w) = window_ w.
Proof.
  destruct w as [? has_frame wd ? ? ? ? ? ? ? ? ? ? ? ? ? ? ? ?].
  split; [|split].
  - intros Hframe. cbn [has_frame_] in Hframe. subst has_frame.
    exists (if resizable
            then Z.lor (Widget_GetWindowLong wd)
                   (Z.lor (Z.lor WS_MAXIMIZEBOX WS_MINIMIZEBOX) WS_THICKFRAME)
            else Z.lor (Z.land (Widget_GetWindowLong wd)
                          (DWORD_not (Z.lor WS_MAXIMIZEBOX WS_THICKFRAME)))
                   WS_MINIMIZEBOX).
    split; [reflexivity|].
    split; [by rewrite SetResizable_style_bits by lia|].
    split; [by rewrite SetResizable_style_bits by lia|].
    split; [by rewrite SetResizable_style_bits by lia|].
    intros n Hn H16 H17 H18. rewrite SetResizable_style_bits by lia.
    destruct (16 =? n) eqn:E16, (17 =? n) eqn:E17, (18 =? n) eqn:E18;
      try reflexivity.
    all: try apply Z.eqb_eq in E16; try apply Z.eqb_eq in E17;
         try apply Z.eqb_eq in E18; lia.
  - intros Hframe. cbn [has_frame_] in Hframe. by subst has_frame.
  - by destruct has_frame.
Qed.

End WindowStyle.

Section Construction.

Context {host : Host}.

Variable os : Platform.

(** X3: The members of a new window: the options override the defaults
    (resizable, empty title, no autohide); [use-content-size] counts in a
    window with a frame only, and is never read in a frameless one; the web
    view is the only child; there is no menu bar, no draggable region and
    no accelerator. *)
Theorem NativeWindowViews_new_members base has_frame taskbar options :
  let w := NativeWindowViews_new os base has_frame taskbar options in
  base_ w = base /\
  has_frame_ w = has_frame /\
  resizable_ w = default true (kResizable options) /\
  title_ w = default EmptyString (kTitle options) /\
  menu_bar_autohide_ w = default false (kAutoHideMenuBar options) /\
  use_content_size_ w = has_frame && default false (kUseContentSize options) /\
  children_ w = [WebView] /\
  menu_bar_ w = None /\
  global_menu_bar_ w = None /\
  menu_bar_visible_ w = false /\
  menu_bar_alt_pressed_ w = false /\
  draggable_region_ w = None /\
  accelerator_table_ w = ∅ /\
  focus_manager_ w = [] /\
  taskbar_ w = taskbar /\
  minimum_size_ w = gfx.mkSize 0 0 /\
  maximum_size_ w = gfx.mkSize 214748364 214748364.
Proof.
  unfold NativeWindowViews_new, constructor_body, initial_members.
  cbv [ContentBoundsToWindowBounds]. unfold_monad.
  destruct options as [resizable title autohide width height skip content].
  destruct has_frame, resizable, title, autohide, content as [[]|];
    simpl; repeat split.
Qed.

End Construction.

Section Runs.

Context {host : Host}.

Variable os : Platform.

Implicit Types w : NativeWindowViews host.

Lemma run_preserves (P : NativeWindowViews host -> Prop) :
  (forall m w, P w -> P (exec (call os m) w)) ->
  forall calls w, P w -> P (run os calls w).
Proof.
  intros Hstep calls. induction calls as [|m calls IH]; intros w Hw; [done|].
  simpl. apply IH. by apply Hstep.
Qed.

Lemma keeps_core_call m w :
  keeps_core m = true -> core (exec (call os m) w) = core w.
Proof.
  destruct m; simpl; try discriminate; intros _; destruct w.
  all: run_methods; try reflexivity.
  all: try (destruct os; simpl); case_conditions; try reflexivity.
  all: by destruct (NativeWindow_CloseWebContents _ _).
Qed.

Lemma RegisterAccelerators_in_step menu_model w :
  accelerators_in_step (exec (RegisterAccelerators menu_model) w).
Proof.
  unfold accelerators_in_step. rewrite RegisterAccelerators_exec. cbv zeta.
  destruct w; simpl.
  unfold FocusManager.registered at 1. rewrite filter_app.
  fold (FocusManager.registered ThisWindow
          (FocusManager.UnregisterAccelerators ThisWindow focus_manager_0)).
  fold (FocusManager.registered ThisWindow
          (window_registration <$>
             AcceleratorTable_keys (GenerateAcceleratorTable ∅ menu_model))).
  rewrite registered_unregistered, registered_window_registrations.
  by rewrite decide_True.
Qed.

Lemma steady_core w w' :
  core w' = core w -> steady os w -> steady os w'.
Proof.
  unfold steady, accelerators_in_step, core.
  intros [= -> -> _ _ -> _ _ -> -> -> -> ->]. tauto.
Qed.

Lemma fixed_members_core w w' :
  core w' = core w -> fixed_members w' = fixed_members w.
Proof. unfold fixed_members, core. by intros [= -> -> -> _ _ _ _ _ _ _ _ _]. Qed.

(** [RegisterAccelerators] assigns the table and the registrations only. *)
Lemma RegisterAccelerators_core menu_model w :
  let w' := exec (RegisterAccelerators menu_model) w in
  core w' =
  {| core_has_frame := has_frame_ w;
     core_autohide := menu_bar_autohide_ w;
     core_use_content_size := use_content_size_ w;
     core_alt_pressed := menu_bar_alt_pressed_ w;
     core_visible := menu_bar_visible_ w;
     core_failed := dcheck_failed_ w;
     core_children := children_ w;
     core_menu_bar := menu_bar_ w;
     core_global_menu_bar := global_menu_bar_ w;
     core_draggable_region := draggable_region_ w;
     core_focus_manager := focus_manager_ w';
     core_accelerator_table := accelerator_table_ w' |}.
Proof. cbv zeta. rewrite RegisterAccelerators_exec. by destruct w. Qed.

Lemma RegisterAccelerators_steady menu_model w :
  steady os w -> steady os (exec (RegisterAccelerators menu_model) w).
Proof.
  intros (Hframeless & Hshown & Hglobal & Hregion & _).
  pose proof (RegisterAccelerators_core menu_model w) as Hcore.
  pose proof (RegisterAccelerators_in_step menu_model w) as Hstep.
  cbv zeta in Hcore. unfold core in Hcore.
  injection Hcore as Hf Ha _ _ Hv _ _ Hm Hg Hd.
  unfold steady. rewrite Hf, Ha, Hv, Hm, Hg, Hd. tauto.
Qed.

Lemma SetMenu_steady env menu_model w :
  steady os w -> steady os (exec (SetMenu os env menu_model) w).
Proof.
  intros Hsteady. unfold SetMenu. rewrite exec_bind.
  apply (RegisterAccelerators_steady menu_model) in Hsteady.
  set (w1 := exec (RegisterAccelerators menu_model) w) in *.
  clearbody w1. clear w.
  destruct w1 as [? has_frame ? ? ? [global|] [menu_bar|] autohide shown ?
                  use_content_size ? ? ? ? ? ? ? ?].
  all: unfold steady, accelerators_in_step in *; simpl in *.
  all: destruct Hsteady as (Hframeless & Hshown & Hglobal & Hregion & Hstep).
  all: destruct os, env as [[] []], has_frame, autohide, use_content_size.
  all: run_methods; case_conditions; close_cases.
Qed.

Lemma SetMenu_fixed_members env menu_model w :
  fixed_members (exec (SetMenu os env menu_model) w) = fixed_members w.
Proof.
  unfold SetMenu. rewrite exec_bind.
  assert (Hfixed : fixed_members (exec (RegisterAccelerators menu_model) w) =
                   fixed_members w)
    by (rewrite RegisterAccelerators_exec; by destruct w).
  rewrite <- Hfixed.
  set (w1 := exec (RegisterAccelerators menu_model) w). clearbody w1.
  destruct w1 as [? has_frame ? ? ? [global|] [menu_bar|] autohide shown ?
                  use_content_size ? ? ? ? ? ? ? ?].
  all: destruct os, env as [[] []], has_frame, autohide, use_content_size.
  all: run_methods; case_conditions; reflexivity.
Qed.

Lemma other_calls_steady m w :
  keeps_core m = false ->
  (forall env menu_model, m <> m_SetMenu env menu_model) ->
  (steady os w -> steady os (exec (call os m) w)) /\
  fixed_members (exec (call os m) w) = fixed_members w.
Proof.
  intros Hkeeps Hmenu.
  destruct m; try discriminate; [by destruct (Hmenu env menu_model)|..].
  all: destruct w as [? has_frame ? ? ? global [menu_bar|] autohide shown ?
                      ? ? ? ? ? ? ? ? ?].
  all: unfold steady, accelerators_in_step, fixed_members; simpl.
  all: try destruct is_window, active.
  all: destruct has_frame, autohide, shown.
  all: run_methods; case_conditions; close_cases.
Qed.

Lemma call_steady m w :
  steady os w -> steady os (exec (call os m) w).
Proof.
  intros Hsteady. destruct (keeps_core m) eqn:Hkeeps.
  - eapply steady_core; [by apply keeps_core_call | done].
  - destruct m; try discriminate.
    + by apply SetMenu_steady.
    + by apply other_calls_steady.
    + by apply other_calls_steady.
    + by apply other_calls_steady.
    + by apply other_calls_steady.
Qed.

Lemma call_fixed_members m w :
  fixed_members (exec (call os m) w) = fixed_members w.
Proof.
  destruct (keeps_core m) eqn:Hkeeps.
  - by apply fixed_members_core, keeps_core_call.
  - destruct m; try discriminate.
    + apply SetMenu_fixed_members.
    + by apply other_calls_steady.
    + by apply other_calls_steady.
    + by apply other_calls_steady.
    + by apply other_calls_steady.
Qed.

Lemma NativeWindowViews_new_steady base has_frame taskbar options :
  steady os (NativeWindowViews_new os base has_frame taskbar options).
Proof.
  unfold NativeWindowViews_new, constructor_body, initial_members.
  cbv [ContentBoundsToWindowBounds]. unfold_monad.
  unfold steady, accelerators_in_step.
  destruct has_frame; simpl; case_conditions; repeat split; done.
Qed.

End Runs.

Section Reachable.

Context {host : Host}.

Implicit Types w : NativeWindowViews host.

Lemma NativeWindowViews_new_fixed_members os base has_frame taskbar options :
  fixed_members (NativeWindowViews_new os base has_frame taskbar options) =
  (has_frame,
   default false (kAutoHideMenuBar options),
   has_frame && default false (kUseContentSize options)).
Proof.
  unfold NativeWindowViews_new, constructor_body, initial_members.
  cbv [ContentBoundsToWindowBounds]. unfold_monad.
  destruct options as [resizable title autohide width height skip content].
  destruct has_frame, autohide, content as [[]|]; reflexivity.
Qed.

Lemma run_fixed_members os calls w :
  fixed_members (run os calls w) = fixed_members w.
Proof.
  apply (run_preserves os (fun w' => fixed_members w' = fixed_members w));
    [|done].
  intros m w' <-. apply call_fixed_members.
Qed.

Lemma reachable_facts os base has_frame taskbar options calls :
  let w := run os calls (NativeWindowViews_new os base has_frame taskbar options) in
  steady os w /\
  menu_bar_invariant w /\
  has_frame_ w = has_frame /\
  menu_bar_autohide_ w = default false (kAutoHideMenuBar options).
Proof.
  intros w.
  pose proof (run_fixed_members os calls
                (NativeWindowViews_new os base has_frame taskbar options)) as Hfixed.
  fold w in Hfixed. rewrite NativeWindowViews_new_fixed_members in Hfixed.
  injection Hfixed as Hframe Hautohide _.
  split; [|split; [|by split]].
  - apply run_preserves; [apply call_steady | apply NativeWindowViews_new_steady].
  - apply run_invariant, NativeWindowViews_new_invariant.
Qed.

(** X4: No method assigns [has_frame_], [menu_bar_autohide_] or
    [use_content_size_]: after any sequence of calls, from any state, they
    are what they were. *)
Theorem fixed_members_never_change os calls w :
  has_frame_ (run os calls w) = has_frame_ w /\
  menu_bar_autohide_ (run os calls w) = menu_bar_autohide_ w /\
  use_content_size_ (run os calls w) = use_content_size_ w.
Proof.
  pose proof (run_fixed_members os calls w) as Hfixed.
  by injection Hfixed as -> -> ->.
Qed.

(** X5: A frameless window never gets a menu bar: whatever is called on it,
    [menu_bar_] stays null, the menu bar is not visible and the web view is
    the only child. *)
Theorem frameless_window_has_no_menu_bar os base taskbar options calls :
  let w := run os calls (NativeWindowViews_new os base false taskbar options) in
  menu_bar_ w = None /\
  menu_bar_visible_ w = false /\
  children_ w = [WebView].
Proof.
  intros w.
  destruct (reachable_facts os base false taskbar options calls)
    as ((Hframeless & _) & (_ & Hchildren & Hbar) & Hframe & _).
  fold w in Hframeless, Hchildren, Hbar, Hframe.
  specialize (Hframeless Hframe). rewrite Hframeless in Hbar.
  destruct (menu_bar_visible_ w); [by specialize (Hbar eq_refl)|done].
Qed.

(** X6: Without autohide the menu bar is visible from the moment it exists:
    in every state of a window constructed without the autohide option (or
    with it false), [menu_bar_visible_] tells whether [menu_bar_] is set. *)
Theorem menu_bar_shown_without_autohide os base has_frame taskbar options calls :
  let w := run os calls (NativeWindowViews_new os base has_frame taskbar options) in
  default false (kAutoHideMenuBar options) = false ->
  menu_bar_visible_ w = non_null (menu_bar_ w).
Proof.
  intros w Hoption.
  destruct (reachable_facts os base has_frame taskbar options calls)
    as ((_ & Hshown & _) & _ & _ & Hautohide).
  fold w in Hshown, Hautohide. apply Hshown. by rewrite Hautohide.
Qed.

(** X7: The Windows build never creates a global menu bar. *)
Theorem no_global_menu_bar_on_windows base has_frame taskbar options calls :
  global_menu_bar_
    (run OS_WIN calls (NativeWindowViews_new OS_WIN base has_frame taskbar options))
  = None.
Proof.
  destruct (reachable_facts OS_WIN base has_frame taskbar options calls)
    as ((_ & _ & Hglobal & _) & _).
  by apply Hglobal.
Qed.

(** X8: A window with a frame never stores a draggable region, and never
    claims a mouse event: [ShouldDescendIntoChildForEventHandling] answers
    true at every point, whatever was called before. *)
Theorem framed_window_always_descends os base taskbar options calls location :
  let w := run os calls (NativeWindowViews_new os base true taskbar options) in
  draggable_region_ w = None /\
  eval (ShouldDescendIntoChildForEventHandling location) w = true.
Proof.
  intros w.
  destruct (reachable_facts os base true taskbar options calls)
    as ((_ & _ & _ & Hregion & _) & _ & Hframe & _).
  fold w in Hregion, Hframe. specialize (Hregion Hframe).
  split; [done|].
  unfold ShouldDescendIntoChildForEventHandling, CanResize. unfold_monad.
  simpl. by rewrite Hregion, Hframe.
Qed.

(** X9: The focus manager and the accelerator table stay in step: in every
    state the window is registered for an accelerator, and then with normal
    priority, exactly when the accelerator is a key of
    [accelerator_table_]. *)
Theorem accelerators_stay_in_step os base has_frame taskbar options calls :
  let w := run os calls (NativeWindowViews_new os base has_frame taskbar options) in
  forall a p,
    mkRegistration a p ThisWindow ∈ focus_manager_ w <->
    p = kNormalPriority /\ is_Some (accelerator_table_ w !! a).
Proof.
  intros w a p.
  destruct (reachable_facts os base has_frame taskbar options calls)
    as ((_ & _ & _ & _ & Hstep) & _).
  fold w in Hstep. unfold accelerators_in_step in Hstep.
  rewrite <- AcceleratorTable_keys_spec.
  assert (Hin : mkRegistration a p ThisWindow ∈ focus_manager_ w <->
                mkRegistration a p ThisWindow ∈
                  FocusManager.registered ThisWindow (focus_manager_ w)).
  { unfold FocusManager.registered. rewrite list_elem_of_filter. simpl. tauto. }
  rewrite Hin, Hstep, list_elem_of_fmap. split.
  - by intros (k & [= -> ->] & Hk).
  - intros [-> Hk]. by exists a.
Qed.

End Reachable.

Section AutohideSequences.

Context {host : Host}.

Variable os : Platform.

Implicit Types w : NativeWindowViews host.

(** [HandleKeyboardEvent] assigns neither [menu_bar_autohide_] nor
    [menu_bar_]. *)
Lemma HandleKeyboardEvent_keeps event w :
  menu_bar_autohide_ (exec (HandleKeyboardEvent os event) w) = menu_bar_autohide_ w /\
  menu_bar_ (exec (HandleKeyboardEvent os event) w) = menu_bar_ w.
Proof.
  destruct w as [? ? ? ? ? ? [menu_bar|] autohide shown alt ? ? ? ? ? ? ? ? ?].
  all: destruct autohide, shown, alt.
  all: run_methods; case_conditions; by split.
Qed.

Lemma not_pressed_and_released event :
  single_alt_released os event -> ~ single_alt_pressed os event.
Proof. intros (Hup & _) (Hdown & _). congruence. Qed.

(** X10: A single Alt pressed and then released toggles the menu bar of a
    window with autohide and a menu bar, and leaves the visibility alone in
    every other window; the flag is clear afterwards.  Pressed and released
    twice, the visibility is back where it was. *)
Theorem single_alt_toggles pressed released w :
  single_alt_pressed os pressed ->
  single_alt_released os released ->
  let toggle w :=
    exec (HandleKeyboardEvent os released)
         (exec (HandleKeyboardEvent os pressed) w) in
  menu_bar_visible_ (toggle w) =
    (if menu_bar_autohide_ w && non_null (menu_bar_ w)
     then negb (menu_bar_visible_ w) else menu_bar_visible_ w) /\
  (menu_bar_autohide_ w = true -> menu_bar_alt_pressed_ (toggle w) = false) /\
  menu_bar_visible_ (toggle (toggle w)) = menu_bar_visible_ w.
Proof.
  intros Hpressed Hreleased toggle.
  pose proof (not_pressed_and_released released Hreleased) as Hnot.
  apply single_alt_pressed_test in Hpressed.
  apply single_alt_released_test in Hreleased.
  assert (Hnot' : WebInputEvent.Type_eqb (type released) WebInputEvent.RawKeyDown &&
                  IsAltKey os released && IsAltModifier released = false).
  { destruct (_ && _ && IsAltModifier released) eqn:E; [|done].
    by apply single_alt_pressed_test in E. }
  assert (Hstep : forall v,
    menu_bar_visible_ (toggle v) =
      (if menu_bar_autohide_ v && non_null (menu_bar_ v)
       then negb (menu_bar_visible_ v) else menu_bar_visible_ v) /\
    menu_bar_alt_pressed_ (toggle v) =
      (if menu_bar_autohide_ v then false else menu_bar_alt_pressed_ v) /\
    menu_bar_autohide_ (toggle v) = menu_bar_autohide_ v /\
    menu_bar_ (toggle v) = menu_bar_ v).
  { intros v. subst toggle. cbv beta.
    destruct (HandleKeyboardEvent_flags os pressed v) as [Ha1 Hv1].
    destruct (HandleKeyboardEvent_keeps pressed v) as [Hk1 Hm1].
    set (v1 := exec (HandleKeyboardEvent os pressed) v) in *.
    destruct (HandleKeyboardEvent_flags os released v1) as [Ha2 Hv2].
    destruct (HandleKeyboardEvent_keeps released v1) as [Hk2 Hm2].
    rewrite Ha2, Hv2, Hk2, Hm2, Ha1, Hv1, Hk1, Hm1.
    rewrite Hpressed, Hreleased, Hnot'.
    destruct (menu_bar_autohide_ v), (non_null (menu_bar_ v)),
             (menu_bar_visible_ v), (menu_bar_alt_pressed_ v); by repeat split. }
  destruct (Hstep w) as (Hv & Ha & Hk & Hm).
  destruct (Hstep (toggle w)) as (Hv' & _).
  split; [done|]. split; [by intros Hauto; rewrite Ha, Hauto|].
  rewrite Hv', Hk, Hm, Hv.
  by destruct (menu_bar_autohide_ w), (non_null (menu_bar_ w)), (menu_bar_visible_ w).
Qed.

(** X11: A release toggles only right after the press: once any event other
    than a single Alt pressed has been handled, the next event, whatever
    it is, leaves the visibility of the menu bar as it is. *)
Theorem toggle_needs_press_just_before event next w :
  ~ single_alt_pressed os event ->
  let w1 := exec (HandleKeyboardEvent os event) w in
  menu_bar_visible_ (exec (HandleKeyboardEvent os next) w1) = menu_bar_visible_ w1.
Proof.
  intros Hnot w1.
  assert (Hnot' : WebInputEvent.Type_eqb (type event) WebInputEvent.RawKeyDown &&
                  IsAltKey os event && IsAltModifier event = false).
  { destruct (_ && _ && IsAltModifier event) eqn:E; [|done].
    by apply single_alt_pressed_test in E. }
  destruct (HandleKeyboardEvent_flags os event w) as [Ha1 _].
  destruct (HandleKeyboardEvent_keeps event w) as [Hk1 _].
  fold w1 in Ha1, Hk1.
  destruct (HandleKeyboardEvent_flags os next w1) as [_ Hv2].
  rewrite Hv2, Ha1, Hk1, Hnot'.
  destruct (menu_bar_autohide_ w); simpl; [|done].
  by rewrite !andb_false_r.
Qed.

(** X12: Every key event goes to the toolkit's handler first, with autohide or
    without; [Layout()] follows exactly when a single Alt is released with
    the flag set and autohide on, be there a menu bar or not. *)
Theorem HandleKeyboardEvent_forwards event w :
  window_ (exec (HandleKeyboardEvent os event) w) =
  let handled := Widget_call (W_HandleKeyboardEvent event) (window_ w) in
  if menu_bar_autohide_ w &&
     negb (WebInputEvent.Type_eqb (type event) WebInputEvent.RawKeyDown &&
           IsAltKey os event && IsAltModifier event) &&
     (WebInputEvent.Type_eqb (type event) WebInputEvent.KeyUp &&
      IsAltKey os event && (modifiers event =? 0)) &&
     menu_bar_alt_pressed_ w
  then Widget_call W_Layout handled
  else handled.
Proof.
  destruct w as [? ? ? ? ? ? [menu_bar|] autohide shown alt ? ? ? ? ? ? ? ? ?].
  all: destruct autohide, shown, alt.
  all: run_methods; case_conditions; try reflexivity; simpl in *; congruence.
Qed.

(** What a click on the web view and a change of activation do to the
    visibility, in a state in which a visible menu bar exists. *)
Lemma hiding_events w :
  menu_bar_invariant w ->
  menu_bar_visible_ (exec HandleMouseDown w) =
    menu_bar_visible_ w && negb (menu_bar_autohide_ w) /\
  menu_bar_visible_ (exec (OnWidgetActivationChanged true false) w) =
    menu_bar_visible_ w && negb (menu_bar_autohide_ w) /\
  menu_bar_visible_ (exec (OnWidgetActivationChanged true true) w) =
    menu_bar_visible_ w /\
  forall active, exec (OnWidgetActivationChanged false active) w = w.
Proof.
  destruct w as [? ? ? ? ? ? [menu_bar|] autohide shown alt ? ? ? ? ? ? ? ? ?].
  all: unfold menu_bar_invariant; simpl; intros (_ & _ & Hbar).
  all: destruct autohide, shown; try (by specialize (Hbar eq_refl)).
  all: run_methods; case_conditions; by repeat split.
Qed.

End AutohideSequences.

Section MenuAndAccelerators.

Context {host : Host}.

Implicit Types w : NativeWindowViews host.

(** X13: With autohide on, a click on the web view and the loss of the focus
    leave the menu bar hidden; without autohide they leave it as it is.
    Gaining the focus never changes it, and a notification about another
    widget changes nothing at all. *)
Theorem autohide_hides_menu_bar os base has_frame taskbar options calls :
  let w := run os calls (NativeWindowViews_new os base has_frame taskbar options) in
  menu_bar_visible_ (exec HandleMouseDown w) =
    menu_bar_visible_ w && negb (menu_bar_autohide_ w) /\
  menu_bar_visible_ (exec (OnWidgetActivationChanged true false) w) =
    menu_bar_visible_ w && negb (menu_bar_autohide_ w) /\
  menu_bar_visible_ (exec (OnWidgetActivationChanged true true) w) =
    menu_bar_visible_ w /\
  forall active, exec (OnWidgetActivationChanged false active) w = w.
Proof.
  intros w. apply hiding_events.
  by destruct (reachable_facts os base has_frame taskbar options calls)
    as (_ & Hinv & _).
Qed.

(** What follows [RegisterAccelerators] in [SetMenu] assigns neither the
    accelerator table nor the registrations. *)
Lemma SetMenu_accelerators os env menu_model w :
  accelerator_table_ (exec (SetMenu os env menu_model) w) =
    accelerator_table_ (exec (RegisterAccelerators menu_model) w) /\
  focus_manager_ (exec (SetMenu os env menu_model) w) =
    focus_manager_ (exec (RegisterAccelerators menu_model) w).
Proof.
  unfold SetMenu. rewrite exec_bind.
  set (w1 := exec (RegisterAccelerators menu_model) w). clearbody w1.
  destruct w1 as [? has_frame ? ? ? [global|] [menu_bar|] autohide shown ?
                  use_content_size ? ? ? ? ? ? ? ?].
  all: destruct os, env as [[] []], has_frame, autohide, use_content_size.
  all: run_methods; case_conditions; by split.
Qed.

(** X14: [SetMenu] registers the accelerators of the menu in every case, also
    when the window is frameless and when the menu goes to the global menu
    bar: afterwards the table is the one generated from the menu, and the
    window is registered for its keys. *)
Theorem SetMenu_registers_accelerators os env menu_model w :
  let w' := exec (SetMenu os env menu_model) w in
  accelerator_table_ w' = GenerateAcceleratorTable ∅ menu_model /\
  FocusManager.registered ThisWindow (focus_manager_ w') =
    window_registration <$>
      AcceleratorTable_keys (GenerateAcceleratorTable ∅ menu_model).
Proof.
  intros w'. subst w'.
  destruct (SetMenu_accelerators os env menu_model w) as [-> ->].
  pose proof (RegisterAccelerators_in_step menu_model w) as Hstep.
  unfold accelerators_in_step in Hstep. rewrite Hstep.
  rewrite RegisterAccelerators_exec. by destruct w.
Qed.

(** X15: Where the menu of [SetMenu] ends up.  Handed to the global menu bar,
    it leaves the menu bar of the window alone.  Otherwise a frameless
    window ignores it, and a window with a frame stores it in its menu
    bar, which is created if need be and shown on creation unless autohide
    is on; an existing menu bar keeps its visibility. *)
Theorem SetMenu_menu_bar os env menu_model w :
  let w' := exec (SetMenu os env menu_model) w in
  (goes_to_global_menu_bar os env w = true ->
   global_menu_bar_ w' = Some (Some menu_model) /\
   menu_bar_ w' = menu_bar_ w /\
   menu_bar_visible_ w' = menu_bar_visible_ w /\
   children_ w' = children_ w /\
   window_ w' = window_ w) /\
  (goes_to_global_menu_bar os env w = false -> has_frame_ w = false ->
   menu_bar_ w' = menu_bar_ w /\
   menu_bar_visible_ w' = menu_bar_visible_ w /\
   children_ w' = children_ w /\
   window_ w' = window_ w) /\
  (goes_to_global_menu_bar os env w = false -> has_frame_ w = true ->
   menu_bar_ w' = Some (Some menu_model) /\
   menu_bar_visible_ w' =
     (if non_null (menu_bar_ w) || menu_bar_autohide_ w
      then menu_bar_visible_ w else true)).
Proof.
  intros w'. subst w'. unfold SetMenu. rewrite exec_bind.
  assert (Hsame : forall w1,
            w1 = exec (RegisterAccelerators menu_model) w ->
            global_menu_bar_ w1 = global_menu_bar_ w /\
            menu_bar_ w1 = menu_bar_ w /\
            menu_bar_visible_ w1 = menu_bar_visible_ w /\
            menu_bar_autohide_ w1 = menu_bar_autohide_ w /\
            has_frame_ w1 = has_frame_ w /\
            children_ w1 = children_ w /\
            window_ w1 = window_ w).
  { intros w1 ->. rewrite RegisterAccelerators_exec. by destruct w. }
  specialize (Hsame _ eq_refl).
  destruct Hsame as (Hg & Hm & Hv & Ha & Hf & Hc & Hw).
  unfold goes_to_global_menu_bar. rewrite <- Hg, <- Hm, <- Hv, <- Ha, <- Hf, <- Hc, <- Hw.
  set (w1 := exec (RegisterAccelerators menu_model) w). clearbody w1. clear.
  destruct w1 as [? has_frame ? ? ? [global|] [menu_bar|] autohide shown ?
                  use_content_size ? ? ? ? ? ? ? ?].
  all: destruct os, env as [[] []], has_frame, autohide, use_content_size.
  all: run_methods; case_conditions; close_cases.
Qed.

Lemma unregister_after_register (fm : list Registration) keys :
  FocusManager.UnregisterAccelerators ThisWindow
    (FocusManager.UnregisterAccelerators ThisWindow fm ++
     (window_registration <$> keys)) =
  FocusManager.UnregisterAccelerators ThisWindow fm.
Proof.
  unfold FocusManager.UnregisterAccelerators.
  rewrite filter_app, list_filter_filter_l by done.
  replace (filter (λ r, reg_target r ≠ ThisWindow) (window_registration <$> keys))
    with (@nil Registration); [by rewrite app_nil_r|].
  induction keys as [|k keys IH]; [done|].
  rewrite fmap_cons, filter_cons_False; [done|]. simpl. by intros Hne.
Qed.

(** X16: The last menu wins: registering the accelerators of one menu and then
    those of another leaves the state that registering the second alone
    leaves; in particular registering the same menu again changes
    nothing. *)
Theorem RegisterAccelerators_last_wins first second w :
  exec (RegisterAccelerators second) (exec (RegisterAccelerators first) w) =
  exec (RegisterAccelerators second) w.
Proof.
  rewrite !RegisterAccelerators_exec. cbv zeta.
  destruct w; simpl. unfold set_focus_manager_; simpl.
  f_equal. by rewrite unregister_after_register.
Qed.

Lemma AcceleratorTable_keys_NoDup {V} (table : gmap Accelerator V) :
  NoDup (AcceleratorTable_keys table).
Proof.
  unfold AcceleratorTable_keys. rewrite merge_sort_Permutation.
  apply NoDup_fst_map_to_list.
Qed.

(** X17: [RegisterAccelerators] never registers the window twice for the same
    accelerator, whatever was registered before. *)
Theorem RegisterAccelerators_no_duplicates menu_model w :
  NoDup (FocusManager.registered ThisWindow
           (focus_manager_ (exec (RegisterAccelerators menu_model) w))).
Proof.
  pose proof (RegisterAccelerators_in_step menu_model w) as Hstep.
  unfold accelerators_in_step in Hstep. rewrite Hstep.
  apply NoDup_fmap_2; [|apply AcceleratorTable_keys_NoDup].
  intros a b. unfold window_registration. congruence.
Qed.

End MenuAndAccelerators.

#[local] Set Warnings "-clear-no-such-hyp".

Section RegionsAndTaskbar.

Context {host : Host}.

Implicit Types w : NativeWindowViews host.

Lemma of_rect_contains region px py :
  SkRegion.contains (SkRegion.of_rect (bounds region)) px py =
  bool_decide (covers region px py).
Proof.
  unfold SkRegion.contains, SkRegion.of_rect, SkRegion.in_rect, covers.
  destruct (bool_decide _) eqn:E.
  - apply bool_decide_eq_true in E.
    rewrite !andb_true_iff, !Z.leb_le, !Z.ltb_lt. lia.
  - apply bool_decide_eq_false in E.
    apply not_true_is_false. rewrite !andb_true_iff, !Z.leb_le, !Z.ltb_lt. lia.
Qed.

(** The region the loop builds from the empty one, point by point. *)
Lemma UpdateDraggableRegions_loop_last_covering regions px py :
  SkRegion.contains (UpdateDraggableRegions_loop regions SkRegion.empty) px py =
  last_covering_draggable regions px py.
Proof.
  rewrite UpdateDraggableRegions_loop_fold. fold (region_of_list regions).
  unfold last_covering_draggable.
  induction regions as [|region regions IH] using rev_ind; [reflexivity|].
  rewrite region_of_list_snoc, of_rect_contains, filter_app, IH.
  rewrite filter_cons, filter_nil.
  destruct (decide (covers region px py)) as [Hin|Hout].
  - rewrite bool_decide_eq_true_2 by done. by rewrite last_snoc.
  - rewrite bool_decide_eq_false_2 by done. by rewrite app_nil_r.
Qed.

(** X18: the region [UpdateDraggableRegions] stores in a frameless window
    holds a point exactly when the last entry of the list that covers the
    point is a draggable one: a later entry overrides the earlier ones
    where they overlap, and an empty list gives the empty region. *)
Theorem stored_region_last_entry_decides regions w :
  has_frame_ w = false ->
  exists region,
    draggable_region_ (exec (UpdateDraggableRegions regions) w) = Some region /\
    forall px py,
      SkRegion.contains region px py = last_covering_draggable regions px py.
Proof.
  destruct w as [? has_frame ? ? ? ? ? ? ? ? ? ? ? ? ? ? ? ? ?].
  simpl. intros ->. eexists. split; [reflexivity|].
  apply UpdateDraggableRegions_loop_last_covering.
Qed.

(** X19: [UpdateDraggableRegions] replaces the stored region, it does not add to
    it: after two calls the state is that of the second call alone. *)
Theorem UpdateDraggableRegions_replaces first second w :
  exec (UpdateDraggableRegions second) (exec (UpdateDraggableRegions first) w) =
  exec (UpdateDraggableRegions second) w.
Proof. destruct w as [? [] ? ? ? ? ? ? ? ? ? ? ? ? ? ? ? ? ?]; reflexivity. Qed.

(** X20: In a frameless window the answer to a mouse event right after
    [UpdateDraggableRegions]: the window claims the point if the last
    entry covering it is draggable; otherwise a resizable window claims it
    if the border test hits, and nothing else is claimed. *)
Theorem ShouldDescend_after_UpdateDraggableRegions regions location w :
  has_frame_ w = false ->
  eval (ShouldDescendIntoChildForEventHandling location)
       (exec (UpdateDraggableRegions regions) w) =
  if last_covering_draggable regions (gfx.x location) (gfx.y location)
  then false
  else if resizable_ w
       then FramelessView_ResizingBorderHitTest (window_ w) location =? HTNOWHERE
       else true.
Proof.
  destruct w as [? has_frame ? ? ? ? ? ? ? ? ? resizable ? ? ? ? ? ? ?].
  simpl. intros ->.
  rewrite <- UpdateDraggableRegions_loop_last_covering.
  unfold ShouldDescendIntoChildForEventHandling, UpdateDraggableRegions, CanResize.
  unfold_monad. simpl.
  destruct (SkRegion.contains _ _ _), resizable; reflexivity.
Qed.

(** X21: [SetSkipTaskbar] touches no tab but the window's own, and in the X11
    build it does nothing at all. *)
Theorem SetSkipTaskbar_own_tab_only os com skip w :
  (forall hwnd,
     hwnd <> Widget_GetAcceleratedWidget (window_ w) ->
     hwnd ∈ taskbar_ (exec (SetSkipTaskbar os com skip) w) <-> hwnd ∈ taskbar_ w) /\
  exec (SetSkipTaskbar USE_X11 com skip) w = w.
Proof.
  split; [|reflexivity]. intros hwnd Hother.
  destruct w, os; run_methods; case_conditions; simpl in *; set_solver.
Qed.

(** X22: The last call of [SetSkipTaskbar] decides: when its two COM calls
    succeed, the window has a tab afterwards exactly when [skip] is false,
    whatever an earlier call did; and a repeated call changes nothing any
    more. *)
Theorem SetSkipTaskbar_last_wins com com' skip skip' w :
  let w1 := exec (SetSkipTaskbar OS_WIN com skip) w in
  let w2 := exec (SetSkipTaskbar OS_WIN com' skip') w1 in
  (FAILED (CreateInstance_result com') = false ->
   FAILED (HrInit_result com') = false ->
   (Widget_GetAcceleratedWidget (window_ w) ∈ taskbar_ w2 <-> skip' = false)) /\
  exec (SetSkipTaskbar OS_WIN com' skip') w2 = w2.
Proof.
  destruct w. run_methods. split.
  - intros -> ->. simpl.
    case_conditions; destruct skip'; simpl; split; try done; set_solver.
  - case_conditions; destruct skip'; simpl; try reflexivity.
    all: unfold set_taskbar_; simpl; f_equal; set_solver.
Qed.

End RegionsAndTaskbar.

Section FrameAndPosition.

Context {host : Host}.

Implicit Types w : NativeWindowViews host.

(** X23: Which frame view a window gets.  In the X11 build it is never the
    toolkit's default, it does not depend on Aero glass, and it is a
    [FramelessView] exactly for a frameless window.  In the Windows build
    it does not depend on the window at all: a [WinFrameView] with Aero
    glass, the toolkit's default without.  The state is only read. *)
Theorem CreateNonClientFrameView_choice aero w :
  (eval (CreateNonClientFrameView USE_X11 aero) w <> NULL /\
   eval (CreateNonClientFrameView USE_X11 aero) w =
     eval (CreateNonClientFrameView USE_X11 (negb aero)) w /\
   (eval (CreateNonClientFrameView USE_X11 aero) w = FramelessView <->
    has_frame_ w = false)) /\
  (forall w',
     eval (CreateNonClientFrameView OS_WIN aero) w =
     eval (CreateNonClientFrameView OS_WIN aero) w') /\
  (eval (CreateNonClientFrameView OS_WIN aero) w = WinFrameView <-> aero = true) /\
  (eval (CreateNonClientFrameView OS_WIN aero) w = NULL <-> aero = false) /\
  (forall os, exec (CreateNonClientFrameView os aero) w = w).
Proof.
  destruct w as [? has_frame ? ? ? ? ? ? ? ? ? ? ? ? ? ? ? ? ?].
  run_methods.
  split; [|split; [|split; [|split]]].
  - destruct has_frame; simpl; repeat split; congruence.
  - intros w'. by destruct aero.
  - destruct aero; simpl; split; congruence.
  - destruct aero; simpl; split; congruence.
  - intros os. by destruct os, aero, has_frame.
Qed.

(** X24: [SetPosition] and [Center] keep the size that [GetSize()] reports, and
    assign nothing but [window_]: the window is given the bounds at the new
    origin with that size, or is centred with that size.  For a minimized
    window of the Windows build that is the size of the restored bounds. *)
Theorem SetPosition_keeps_size os position w :
  let reported :=
    gfx.size (if is_win os && Widget_IsMinimized (window_ w)
              then Widget_GetRestoredBounds (window_ w)
              else Widget_GetWindowBoundsInScreen (window_ w)) in
  window_ (exec (SetPosition os position) w) =
    Widget_call (W_SetBounds (gfx.mkRect position reported)) (window_ w) /\
  only_window_changed w (exec (SetPosition os position) w) /\
  window_ (exec (Center os) w) =
    Widget_call (W_CenterWindow reported) (window_ w) /\
  only_window_changed w (exec (Center os) w).
Proof.
  intros reported. subst reported.
  unfold SetPosition, Center, only_window_changed.
  rewrite !exec_bind. unfold eval, exec. rewrite !GetSize_eq. simpl.
  destruct w; repeat split.
Qed.

End FrameAndPosition.

(** ** On the concrete windows *)

(** Taking the resize border off the framed window, and the frameless
    window, which is left alone. *)
Lemma SetResizable_window_style_witness :
  (exists style,
     window_ (exec (SetResizable OS_WIN false) framed_window) =
       Widget_call (W_SetWindowLong style) (window_ framed_window) /\
     Z.testbit style 16 = false /\
     Z.testbit style 17 = true /\
     Z.testbit style 18 = false /\
     forall n, 0 <= n < 32 -> n <> 16 -> n <> 17 -> n <> 18 ->
       Z.testbit style n =
       Z.testbit (Widget_GetWindowLong (window_ framed_window)) n) /\
  window_ (exec (SetResizable OS_WIN true) frameless_window) =
    window_ frameless_window.
Proof.
  split.
  - destruct (SetResizable_window_style false framed_window) as (Hframed & _).
    apply Hframed. reflexivity.
  - destruct (SetResizable_window_style true frameless_window)
      as (_ & Hframeless & _).
    apply Hframeless. reflexivity.
Defined.

(** A window without autohide after a menu was set and the web view
    clicked. *)
Lemma menu_bar_shown_without_autohide_witness :
  menu_bar_visible_
    (run OS_WIN menu_then_click (new_window OS_WIN true ∅ no_options)) =
  non_null
    (menu_bar_
       (run OS_WIN menu_then_click (new_window OS_WIN true ∅ no_options))).
Proof.
  apply (menu_bar_shown_without_autohide (host := simple_host) OS_WIN tt true ∅
           no_options menu_then_click).
  reflexivity.
Defined.

(** Alt pressed and released on the autohide window with a menu, whose
    menu bar starts hidden. *)
Lemma single_alt_toggles_witness :
  menu_bar_visible_
    (exec (HandleKeyboardEvent OS_WIN alt_up)
          (exec (HandleKeyboardEvent OS_WIN alt_down) autohide_menu_window)) =
  true.
Proof.
  assert (Hpressed : single_alt_pressed OS_WIN alt_down)
    by (split; [reflexivity|]; split; [reflexivity|]; by left).
  assert (Hreleased : single_alt_released OS_WIN alt_up) by by repeat split.
  destruct (single_alt_toggles OS_WIN alt_down alt_up autohide_menu_window
              Hpressed Hreleased) as (Htoggled & _).
  rewrite Htoggled. reflexivity.
Defined.

(** The key A between the press and the release of Alt. *)
Lemma toggle_needs_press_just_before_witness :
  menu_bar_visible_
    (exec (HandleKeyboardEvent OS_WIN alt_up)
          (exec (HandleKeyboardEvent OS_WIN (mkKeyEvent WebInputEvent.RawKeyDown 65 0))
                autohide_menu_window)) =
  menu_bar_visible_
    (exec (HandleKeyboardEvent OS_WIN (mkKeyEvent WebInputEvent.RawKeyDown 65 0))
          autohide_menu_window).
Proof.
  apply (toggle_needs_press_just_before OS_WIN
           (mkKeyEvent WebInputEvent.RawKeyDown 65 0) alt_up autohide_menu_window).
  intros (_ & Halt & _). vm_compute in Halt. discriminate.
Defined.

(** A menu set where the global menu bar takes it, on the frameless window
    and on the framed one. *)
Lemma SetMenu_menu_bar_witness :
  global_menu_bar_
    (exec (SetMenu USE_X11 (mkGlobalMenuEnv true true) one_item_menu)
          (new_window USE_X11 true ∅ no_options)) = Some (Some one_item_menu) /\
  menu_bar_
    (exec (SetMenu USE_X11 (mkGlobalMenuEnv false false) one_item_menu)
          frameless_window) = menu_bar_ frameless_window /\
  (menu_bar_
     (exec (SetMenu OS_WIN (mkGlobalMenuEnv false false) one_item_menu)
           framed_window) = Some (Some one_item_menu) /\
   menu_bar_visible_
     (exec (SetMenu OS_WIN (mkGlobalMenuEnv false false) one_item_menu)
           framed_window) = true).
Proof.
  split; [|split].
  - destruct (SetMenu_menu_bar (host := simple_host) USE_X11
                (mkGlobalMenuEnv true true) one_item_menu
                (new_window USE_X11 true ∅ no_options)) as (Hglobal & _).
    apply Hglobal. reflexivity.
  - destruct (SetMenu_menu_bar (host := simple_host) USE_X11
                (mkGlobalMenuEnv false false) one_item_menu frameless_window)
      as (_ & Hframeless & _).
    apply Hframeless; reflexivity.
  - destruct (SetMenu_menu_bar (host := simple_host) OS_WIN
                (mkGlobalMenuEnv false false) one_item_menu framed_window)
      as (_ & _ & Hframed).
    apply Hframed; reflexivity.
Defined.

(** A click on the title strip of a new frameless window. *)
Lemma ShouldDescend_after_UpdateDraggableRegions_witness :
  eval (ShouldDescendIntoChildForEventHandling (gfx.mkPoint 100 10))
       (exec (UpdateDraggableRegions title_strip)
             (new_window USE_X11 false ∅ no_options)) = false.
Proof.
  rewrite (ShouldDescend_after_UpdateDraggableRegions title_strip
             (gfx.mkPoint 100 10) (new_window USE_X11 false ∅ no_options))
    by reflexivity.
  reflexivity.
Defined.

(** The tab of another window while the framed window leaves the
    taskbar. *)
Lemma SetSkipTaskbar_own_tab_only_witness :
  7 ∈ taskbar_ (exec (SetSkipTaskbar OS_WIN (mkComEnv 0 0) true) framed_window) <->
  7 ∈ taskbar_ framed_window.
Proof.
  destruct (SetSkipTaskbar_own_tab_only OS_WIN (mkComEnv 0 0) true framed_window)
    as [Hother _].
  apply Hother. vm_compute. discriminate.
Defined.

(** The framed window leaves the taskbar and comes back. *)
Lemma SetSkipTaskbar_last_wins_witness :
  42 ∈ taskbar_
         (exec (SetSkipTaskbar OS_WIN (mkComEnv 0 0) false)
               (exec (SetSkipTaskbar OS_WIN (mkComEnv 0 0) true) framed_window)) <->
  false = false.
Proof.
  destruct (SetSkipTaskbar_last_wins (mkComEnv 0 0) (mkComEnv 0 0) true false
              framed_window) as [Hlast _].
  apply Hlast; reflexivity.
Defined.

(** The region stored for the title strip in a new frameless window. *)
Lemma stored_region_last_entry_decides_witness :
  exists region,
    draggable_region_
      (exec (UpdateDraggableRegions title_strip)
            (new_window USE_X11 false ∅ no_options)) = Some region /\
    forall px py,
      SkRegion.contains region px py = last_covering_draggable title_strip px py.
Proof.
  apply (stored_region_last_entry_decides title_strip
           (new_window USE_X11 false ∅ no_options)).
  reflexivity.
Defined.

(** A sum within the range of [int] is not changed, and every edge is in
    that range. *)
Lemma int_wrap_in_range (z : Z) :
  - 2 ^ 31 <= z < 2 ^ 31 -> gfx.int_wrap z = z.
Proof.
  intros Hz. unfold gfx.int_wrap.
  rewrite Z.mod_small by lia. lia.
Qed.

Lemma Rect_far_edges_in_range (r : gfx.Rect) :
  - 2 ^ 31 <= gfx.Rect_right r < 2 ^ 31 /\
  - 2 ^ 31 <= gfx.Rect_bottom r < 2 ^ 31.
Proof.
  unfold gfx.Rect_right, gfx.Rect_bottom, gfx.int_wrap.
  pose proof (Z.mod_pos_bound (gfx.Rect_x r + gfx.Rect_width r + 2 ^ 31) (2 ^ 32)).
  pose proof (Z.mod_pos_bound (gfx.Rect_y r + gfx.Rect_height r + 2 ^ 31) (2 ^ 32)).
  lia.
Qed.

(** A draggable rectangle whose right edge passes [INT_MAX]: the edge
    wraps to the left of the rectangle, so the rectangle is empty and
    nothing becomes draggable. *)
Example wrapped_edge_gives_empty_region :
  gfx.Rect_right (gfx.Rect_new 2147483000 0 1000 10) = -2147483296 /\
  SkRegion.contains
    (UpdateDraggableRegions_loop
       [mkDraggableRegion true (gfx.Rect_new 2147483000 0 1000 10)]
       SkRegion.empty)
    2147483100 5 = false /\
  last_covering_draggable
    [mkDraggableRegion true (gfx.Rect_new 2147483000 0 1000 10)]
    2147483100 5 = false.
Proof. repeat split. Qed.
